(** * Verification of the PolyAgent Sim backend (backend/app)

    A shallow embedding of the market normalizer and scorer
    ([services/polymarket_service.py], [services/market_analyzer.py]), of the
    admission and caching gate and of the paper-trading ledger ([main.py],
    [schemas.py], [models.py]).

    Python floats are modelled as exact rationals extended with the three
    non-finite values: IEEE rounding is not modelled, the overflow of
    [float()] is (an int too large raises OverflowError, a decimal string
    too large gives an infinity); Python exceptions are modelled by an
    error monad. *)

From Stdlib Require Import ZArith QArith Qabs Qround List String Ascii Bool Lia.
From Stdlib Require Import Sorting.Sorted Sorting.Permutation.
From Stdlib Require Import Lqa.
Import ListNotations.
Open Scope Z_scope.
Set Warnings "-register-all".

(* ================================================================== *)
(** ** Python values, floats and exceptions *)

Module Py.

(** A Python float: a finite value (kept exact), the two infinities or NaN. *)
Inductive pyfloat : Type :=
| Fin (q : Q)
| PInf
| NInf
| NaN.

(** JSON-like Python values as they arrive in the upstream payloads
    (dicts have string keys). *)
Inductive pyval : Type :=
| PNone
| PBool (b : bool)
| PInt (z : Z)
| PFloat (f : pyfloat)
| PStr (s : string)
| PList (l : list pyval)
| PDict (d : list (string * pyval)).

Definition dict := list (string * pyval).

(** The exceptions that the modelled code can raise. *)
Inductive pyexc : Type :=
| TypeError
| ValueError
| IndexError
| KeyError
| AttributeError
| OverflowError
| JSONDecodeError
| RecursionError
| ZeroDivisionError
| PydanticValidationError.

Inductive result (A : Type) : Type :=
| Ok (a : A)
| Raise (e : pyexc).
Arguments Ok {A} a.
Arguments Raise {A} e.

Definition bind {A B} (m : result A) (f : A -> result B) : result B :=
  match m with
  | Ok a => f a
  | Raise e => Raise e
  end.

Notation "'let*' x ':=' m 'in' f" := (bind m (fun x => f))
  (at level 200, x name, m at level 100, f at level 200).

(** [dict.get(k)] and [dict.get(k, default)]. *)
Fixpoint get_default (d : dict) (k : string) (dflt : pyval) : pyval :=
  match d with
  | [] => dflt
  | (k', v) :: d' => if String.eqb k k' then v else get_default d' k dflt
  end.

Definition get (d : dict) (k : string) : pyval := get_default d k PNone.

Definition is_none (v : pyval) : bool :=
  match v with PNone => true | _ => false end.

(** Python truthiness ([bool(v)]). *)
Definition truthy (v : pyval) : bool :=
  match v with
  | PNone => false
  | PBool b => b
  | PInt z => negb (z =? 0)
  | PFloat (Fin q) => negb (Qeq_bool q 0)
  | PFloat _ => true
  | PStr s => negb (String.eqb s EmptyString)
  | PList l => match l with [] => false | _ => true end
  | PDict d => match d with [] => false | _ => true end
  end.

(** [a or b]. *)
Definition py_or (a b : pyval) : pyval := if truthy a then a else b.

(** Float comparison [a < b] (false as soon as NaN is involved). *)
Definition pf_lt (a b : pyfloat) : bool :=
  match a, b with
  | Fin x, Fin y => negb (Qle_bool y x)
  | NInf, Fin _ | NInf, PInf | Fin _, PInf => true
  | _, _ => false
  end.

(** The builtins [min(a, b)] and [max(a, b)]: the first argument is kept
    unless the second one compares strictly smaller (resp. greater). *)
Definition py_min (a b : pyfloat) : pyfloat := if pf_lt b a then b else a.
Definition py_max (a b : pyfloat) : pyfloat := if pf_lt a b then b else a.

Definition pf_add (a b : pyfloat) : pyfloat :=
  match a, b with
  | NaN, _ | _, NaN => NaN
  | PInf, NInf | NInf, PInf => NaN
  | PInf, _ | _, PInf => PInf
  | NInf, _ | _, NInf => NInf
  | Fin x, Fin y => Fin (x + y)
  end.

Definition pf_neg (a : pyfloat) : pyfloat :=
  match a with
  | Fin x => Fin (- x)
  | PInf => NInf
  | NInf => PInf
  | NaN => NaN
  end.

Definition pf_sub (a b : pyfloat) : pyfloat := pf_add a (pf_neg b).

(** Multiplication by a finite constant. *)
Definition pf_scale (a : pyfloat) (c : Q) : pyfloat :=
  match a with
  | Fin x => Fin (x * c)
  | NaN => NaN
  | PInf => if Qeq_bool c 0 then NaN else if Qle_bool 0 c then PInf else NInf
  | NInf => if Qeq_bool c 0 then NaN else if Qle_bool 0 c then NInf else PInf
  end.

Definition pf_abs (a : pyfloat) : pyfloat :=
  match a with
  | Fin x => Fin (Qabs x)
  | NInf => PInf
  | x => x
  end.

(** *** The builtins [float()] and [int()] *)

(** Whitespace stripped by [float()] and [int()] on an ASCII string. *)
Definition is_space (c : ascii) : bool :=
  let n := nat_of_ascii c in
  ((9 <=? n) && (n <=? 13))%nat || ((28 <=? n) && (n <=? 32))%nat.

Definition is_digit (c : ascii) : bool :=
  let n := nat_of_ascii c in ((48 <=? n) && (n <=? 57))%nat.

Definition digit_val (c : ascii) : Z := Z.of_nat (nat_of_ascii c) - 48.

Fixpoint drop_spaces (cs : list ascii) : list ascii :=
  match cs with
  | c :: r => if is_space c then drop_spaces r else cs
  | [] => []
  end.

Definition strip (cs : list ascii) : list ascii :=
  rev (drop_spaces (rev (drop_spaces cs))).

(** After a first digit: more digits, each optionally preceded by one
    underscore.  Returns the digits read (in reverse) and the rest. *)
Fixpoint digits_tail (acc : list Z) (cs : list ascii) : list Z * list ascii :=
  match cs with
  | c :: r =>
      if is_digit c then digits_tail (digit_val c :: acc) r
      else if Ascii.eqb c "_"%char then
        match r with
        | c2 :: r2 => if is_digit c2 then digits_tail (digit_val c2 :: acc) r2
                      else (acc, cs)
        | [] => (acc, cs)
        end
      else (acc, cs)
  | [] => (acc, [])
  end.

(** [digitpart ::= digit (["_"] digit)*] *)
Definition digitpart (cs : list ascii) : option (list Z * list ascii) :=
  match cs with
  | c :: r => if is_digit c then Some (digits_tail [digit_val c] r) else None
  | [] => None
  end.

(** Value of digits given most significant last. *)
Fixpoint digits_value (ds : list Z) : Z :=
  match ds with
  | [] => 0
  | d :: ds' => d + 10 * digits_value ds'
  end.

Definition parse_sign (cs : list ascii) : bool * list ascii :=
  match cs with
  | c :: r => if Ascii.eqb c "-"%char then (true, r)
              else if Ascii.eqb c "+"%char then (false, r) else (false, cs)
  | [] => (false, [])
  end.

(** Optional exponent [("e"|"E") [sign] digitpart]. *)
Definition exponent (cs : list ascii) : option (Z * list ascii) :=
  match cs with
  | c :: r =>
      if Ascii.eqb c "e"%char || Ascii.eqb c "E"%char then
        let (neg, r') := parse_sign r in
        match digitpart r' with
        | Some (ds, r'') =>
            let e := digits_value ds in Some (if neg then - e else e, r'')
        | None => None
        end
      else Some (0, cs)
  | [] => Some (0, [])
  end.

(** Mantissa digits and number of fractional digits of
    [digitpart ["." [digitpart]] | "." digitpart]. *)
Definition mantissa (cs : list ascii) : option (list Z * Z * list ascii) :=
  match digitpart cs with
  | Some (ip, r) =>
      match r with
      | c :: r' =>
          if Ascii.eqb c "."%char then
            match digitpart r' with
            | Some (fp, r'') => Some (List.app fp ip, Z.of_nat (List.length fp), r'')
            | None => Some (ip, 0, r')
            end
          else Some (ip, 0, r)
      | [] => Some (ip, 0, [])
      end
  | None =>
      match cs with
      | c :: r' =>
          if Ascii.eqb c "."%char then
            match digitpart r' with
            | Some (fp, r'') => Some (fp, Z.of_nat (List.length fp), r'')
            | None => None
            end
          else None
      | [] => None
      end
  end.

Definition decimal_value (m k : Z) : Q :=
  if 0 <=? k then inject_Z (m * 10 ^ k) else Qmake m (Z.to_pos (10 ^ (- k))).

(** An unsigned decimal literal, consuming the whole input. *)
Definition parse_number (cs : list ascii) : option Q :=
  match mantissa cs with
  | Some (ds, nfrac, r) =>
      match exponent r with
      | Some (e, []) => Some (decimal_value (digits_value ds) (e - nfrac))
      | _ => None
      end
  | None => None
  end.

Definition lower (c : ascii) : ascii :=
  let n := nat_of_ascii c in
  if ((65 <=? n) && (n <=? 90))%nat then ascii_of_nat (n + 32) else c.

Definition ascii_list_eqb (a b : list ascii) : bool :=
  String.eqb (string_of_list_ascii a) (string_of_list_ascii b).

(** Half an ulp above the largest double, [2^1024 - 2^970]: a real number
    of at least this magnitude rounds to an infinity. *)
Definition double_overflow : Z := 2 ^ 1024 - 2 ^ 970.

(** [float(s)] for a string [s]: [None] is the [ValueError]; a decimal
    literal too large for a double gives an infinity. *)
Definition parse_float_str (s : string) : option pyfloat :=
  let (neg, body) := parse_sign (strip (list_ascii_of_string s)) in
  let low := string_of_list_ascii (map lower body) in
  if String.eqb low "inf" || String.eqb low "infinity" then
    Some (if neg then NInf else PInf)
  else if String.eqb low "nan" then Some NaN
  else match parse_number body with
       | Some q =>
           if Qle_bool (inject_Z double_overflow) q then Some (if neg then NInf else PInf)
           else Some (Fin (if neg then Qopp q else q))
       | None => None
       end.

(** [int(s)] for a string [s] (base 10). *)
Definition parse_int_str (s : string) : option Z :=
  let (neg, body) := parse_sign (strip (list_ascii_of_string s)) in
  match digitpart body with
  | Some (ds, []) => let v := digits_value ds in Some (if neg then - v else v)
  | _ => None
  end.

(** The builtin [float(v)]. *)
Definition float_of (v : pyval) : result pyfloat :=
  match v with
  | PBool b => Ok (Fin (if b then 1 else 0)%Q)
  | PInt z => if double_overflow <=? Z.abs z then Raise OverflowError
              else Ok (Fin (inject_Z z))
  | PFloat f => Ok f
  | PStr s => match parse_float_str s with
              | Some f => Ok f
              | None => Raise ValueError
              end
  | PNone | PList _ | PDict _ => Raise TypeError
  end.

(** The builtin [int(v)]: floats are truncated toward zero. *)
Definition int_of (v : pyval) : result Z :=
  match v with
  | PBool b => Ok (if b then 1 else 0)
  | PInt z => Ok z
  | PFloat (Fin q) => Ok (Z.quot (Qnum q) (Zpos (Qden q)))
  | PFloat NaN => Raise ValueError
  | PFloat _ => Raise OverflowError
  | PStr s => match parse_int_str s with
              | Some z => Ok z
              | None => Raise ValueError
              end
  | PNone | PList _ | PDict _ => Raise TypeError
  end.

(** [len(v)] and [v[i]] on the values that support them (the dict keys
    of the payloads are strings, so an integer subscript is a [KeyError]). *)
Definition py_len (v : pyval) : result nat :=
  match v with
  | PStr s => Ok (String.length s)
  | PList l => Ok (List.length l)
  | PDict d => Ok (List.length d)
  | _ => Raise TypeError
  end.

Definition py_index (v : pyval) (i : nat) : result pyval :=
  match v with
  | PStr s => match String.get i s with
              | Some c => Ok (PStr (String c EmptyString))
              | None => Raise IndexError
              end
  | PList l => match nth_error l i with
               | Some x => Ok x
               | None => Raise IndexError
               end
  | PDict _ => Raise KeyError
  | _ => Raise TypeError
  end.

End Py.

(* ================================================================== *)
(** ** Market Snapshot Normalizer ([services/polymarket_service.py]) *)

Module Normalizer.
Import Py.

(** The normalized market, the dict returned by [_parse_market]. *)
Record MarketSnapshot : Type := mkSnapshot {
  snap_id : pyval;
  question : pyval;
  description : pyval;
  yes_price : pyfloat;
  no_price : pyfloat;
  best_bid : option pyfloat;
  best_ask : option pyfloat;
  last_trade_price : option pyfloat;
  volume : pyfloat;
  volume_24h : pyfloat;
  volume_1w : pyfloat;
  liquidity : pyfloat;
  spread : pyfloat;
  one_hour_change : pyfloat;
  one_day_change : pyfloat;
  one_week_change : pyfloat;
  one_month_change : pyfloat;
  competitive : pyfloat;
  comment_count : Z;
  tags : pyval;
  featured : pyval;
  end_date : pyval;
  days_until_resolution : option Z;
  image : pyval
}.

Section Parse.

(** [json.loads] of the standard library: the decoded value, or the
    exception it raises ([JSONDecodeError] on malformed text, and also
    [RecursionError] on too deeply nested text or [ValueError] on an
    integer literal beyond the digit limit). *)
Variable json_loads : string -> result pyval.

(** The [days_until] computation of [_parse_market] from a truthy end date:
    ISO parsing against the clock, inside a bare [except], so it never
    raises; [None] when parsing fails. *)
Variable days_until_of : pyval -> option Z.

Definition half : pyfloat := Fin (1 # 2).

(** The [try] body of [parse_outcome_prices]: [Ok None] when the [if] is
    not taken and control falls through to [return 0.5, 0.5]. *)
Definition parse_outcome_prices_body (outcome_prices_raw : pyval)
  : result (option (pyfloat * pyfloat)) :=
  let* outcome_prices :=
    match outcome_prices_raw with
    | PStr s => json_loads s
    | _ => Ok (py_or outcome_prices_raw (PList []))
    end in
  if truthy outcome_prices then
    let* n := py_len outcome_prices in
    if (1 <=? n)%nat then
      let* p0 := py_index outcome_prices 0 in
      let* yes := float_of p0 in
      let* no :=
        if (1 <? n)%nat then
          (let* p1 := py_index outcome_prices 1 in float_of p1)
        else Ok (pf_sub (Fin 1) yes) in
      Ok (Some (yes, no))
    else Ok None
  else Ok None.

(** [except (ValueError, IndexError, json.JSONDecodeError): pass] *)
Definition caught_by_parse_outcome_prices (e : pyexc) : bool :=
  match e with
  | ValueError | IndexError | JSONDecodeError => true
  | _ => false
  end.

Definition parse_outcome_prices (outcome_prices_raw : pyval)
  : result (pyfloat * pyfloat) :=
  match parse_outcome_prices_body outcome_prices_raw with
  | Ok (Some p) => Ok p
  | Ok None => Ok (half, half)
  | Raise e =>
      if caught_by_parse_outcome_prices e then Ok (half, half) else Raise e
  end.

(** The priority chain of price sources (lines 37-50). *)
Definition resolve_prices (market : dict) : result (pyfloat * pyfloat) :=
  let best_bid := get market "bestBid" in
  let best_ask := get market "bestAsk" in
  let last_trade := get market "lastTradePrice" in
  let outcome_prices_raw := get market "outcomePrices" in
  if negb (is_none last_trade) then
    let* yes := float_of last_trade in Ok (yes, pf_sub (Fin 1) yes)
  else if negb (is_none best_bid) && negb (is_none best_ask) then
    let* b := float_of best_bid in
    let* a := float_of best_ask in
    let yes := pf_scale (pf_add b a) (1 # 2) in
    Ok (yes, pf_sub (Fin 1) yes)
  else if truthy outcome_prices_raw then parse_outcome_prices outcome_prices_raw
  else Ok (half, half).

(** [yes_price = max(0.001, min(0.999, yes_price))] *)
Definition clamp_price (y : pyfloat) : pyfloat :=
  py_max (Fin (1 # 1000)) (py_min (Fin (999 # 1000)) y).

(** [float(x) if x is not None else None] *)
Definition opt_float (v : pyval) : result (option pyfloat) :=
  if is_none v then Ok None else let* f := float_of v in Ok (Some f).

(** [float(market.get(k) or 0)] *)
Definition float_or_zero (d : dict) (k : string) : result pyfloat :=
  float_of (py_or (get d k) (PInt 0)).

Definition _parse_market (market event : dict) : result MarketSnapshot :=
  let* prices := resolve_prices market in
  let yes := clamp_price (fst prices) in
  let no := pf_sub (Fin 1) yes in
  let end_date := py_or (get market "endDate") (get event "endDate") in
  let days_until := if truthy end_date then days_until_of end_date else None in
  let id := py_or (py_or (get market "conditionId") (get market "id")) (PStr "") in
  let q := py_or (py_or (get market "question") (get event "title"))
                 (PStr "Unknown") in
  let desc := py_or (py_or (get market "description") (get event "description"))
                    (PStr "") in
  let* bb := opt_float (get market "bestBid") in
  let* ba := opt_float (get market "bestAsk") in
  let* lt := opt_float (get market "lastTradePrice") in
  let* vol := float_or_zero market "volume" in
  let* vol24 := float_or_zero market "volume24hr" in
  let* vol1w := float_or_zero market "volume1wk" in
  let* liq := float_or_zero market "liquidity" in
  let* spr := float_or_zero market "spread" in
  let* ch1h := float_or_zero market "oneHourPriceChange" in
  let* ch1d := float_or_zero market "oneDayPriceChange" in
  let* ch1w := float_or_zero market "oneWeekPriceChange" in
  let* ch1m := float_or_zero market "oneMonthPriceChange" in
  let* comp := float_or_zero market "competitive" in
  let* cc := int_of (py_or (get event "commentCount") (PInt 0)) in
  Ok {| snap_id := id; question := q; description := desc;
        yes_price := yes; no_price := no;
        best_bid := bb; best_ask := ba; last_trade_price := lt;
        volume := vol; volume_24h := vol24; volume_1w := vol1w;
        liquidity := liq; spread := spr;
        one_hour_change := ch1h; one_day_change := ch1d;
        one_week_change := ch1w; one_month_change := ch1m;
        competitive := comp; comment_count := cc;
        tags := py_or (get event "tags") (PList []);
        featured := get_default event "featured" (PBool false);
        end_date := end_date; days_until_resolution := days_until;
        image := py_or (get market "image") (get event "image") |}.

End Parse.

End Normalizer.

(* ================================================================== *)
(** ** Opportunity Scorer ([services/market_analyzer.py]) *)

Module Scorer.
Import Py.

(** Python's [round(x, 1)] on the exact value (round half to even). *)
Definition round_half_even (q : Q) : Z :=
  let f := Qfloor q in
  let r := (q - inject_Z f)%Q in
  if negb (Qle_bool (1 # 2) r) then f
  else if negb (Qle_bool r (1 # 2)) then f + 1
  else if Z.even f then f else f + 1.

Definition round1 (x : pyfloat) : pyfloat :=
  match x with
  | Fin q => Fin (Qmake (round_half_even (q * 10)) 10)
  | other => other
  end.

Record ScoreBreakdown : Type := mkBreakdown {
  momentum_score : pyfloat;
  volume_score : pyfloat;
  liquidity_score : pyfloat;
  spread_score : pyfloat;
  uncertainty_score : pyfloat;
  timing_score : pyfloat;
  engagement_score : pyfloat
}.

(** The enriched market returned by [calculate_opportunity_score]. *)
Record ScoredMarket : Type := mkScored {
  yes_price : pyfloat;
  no_price : pyfloat;
  best_bid : option pyfloat;
  best_ask : option pyfloat;
  spread : pyfloat;
  volume : pyfloat;
  volume_24h : pyfloat;
  volume_1w : pyfloat;
  liquidity : pyfloat;
  one_hour_change : pyfloat;
  one_day_change : pyfloat;
  one_week_change : pyfloat;
  one_month_change : pyfloat;
  competitive : pyfloat;
  comment_count : Z;
  is_featured : pyval;
  days_until_resolution : option Z;
  tags : list pyval;
  opportunity_score : pyfloat;
  score_breakdown : ScoreBreakdown
}.

Section Score.

(** [math.log10], applied to values [>= 1]. *)
Variable log10 : pyfloat -> pyfloat.

(** The end-date parse of the scorer (inside a bare [except]). *)
Variable days_until_of : pyval -> option Z.

(** The factor formulas, lines 51-90. *)
Definition momentum (change_24h change_1w : pyfloat) : pyfloat :=
  py_min (Fin 100) (pf_add (pf_scale (pf_abs change_24h) 500)
                           (pf_scale (pf_abs change_1w) 200)).

Definition log_score (x : pyfloat) : pyfloat :=
  py_min (Fin 100) (pf_scale (log10 (py_max (Fin 1) x)) 15).

Definition spread_factor (spread : pyfloat) : pyfloat :=
  py_max (Fin 0) (pf_sub (Fin 100) (pf_scale spread 2000)).

Definition uncertainty (price : pyfloat) : pyfloat :=
  pf_sub (Fin 100) (pf_scale (pf_abs (pf_sub price (Fin (1 # 2)))) 200).

Definition timing (days : option Z) : Z :=
  match days with
  | None => 50
  | Some d =>
      if d <? 1 then 30
      else if d <? 7 then 100
      else if d <? 30 then 80
      else if d <? 90 then 60
      else 40
  end.

Definition engagement (comment_count : Z) (is_featured : pyval) : pyfloat :=
  let e := py_min (Fin 100)
             (pf_scale (log10 (Fin (inject_Z (Z.max 1 comment_count)))) 30) in
  if truthy is_featured then py_min (Fin 100) (pf_add e (Fin 20)) else e.

(** [[t.get("label") for t in event.get("tags", [])]] *)
Definition tag_labels (v : pyval) : result (list pyval) :=
  match v with
  | PList l =>
      fold_right (fun t acc =>
        let* rest := acc in
        match t with
        | PDict d => Ok (get d "label" :: rest)
        | _ => Raise AttributeError
        end) (Ok []) l
  | PStr s => if String.eqb s EmptyString then Ok [] else Raise AttributeError
  | PDict d => match d with [] => Ok [] | _ => Raise AttributeError end
  | _ => Raise TypeError
  end.

Definition float_or (d : dict) (k : string) (dflt : pyval) : result pyfloat :=
  float_of (py_or (get d k) dflt).

Definition calculate_opportunity_score (market event : dict)
  : result ScoredMarket :=
  let* price := float_or market "lastTradePrice" (PFloat (Fin (1 # 2))) in
  let* vol24 := float_or market "volume24hr" (PInt 0) in
  let* vol1w := float_or market "volume1wk" (PInt 0) in
  let* liq := float_of (py_or (py_or (get market "liquidityNum")
                                     (get market "liquidity")) (PInt 0)) in
  let* spr := float_or market "spread" (PFloat (Fin (5 # 100))) in
  let* comp := float_or market "competitive" (PInt 0) in
  let* ch1h := float_or market "oneHourPriceChange" (PInt 0) in
  let* ch24 := float_or market "oneDayPriceChange" (PInt 0) in
  let* ch1w := float_or market "oneWeekPriceChange" (PInt 0) in
  let* ch1m := float_or market "oneMonthPriceChange" (PInt 0) in
  let* cc := int_of (py_or (get event "commentCount") (PInt 0)) in
  let featured := get_default event "featured" (PBool false) in
  let end_date_str := py_or (get market "endDate") (get event "endDate") in
  let days := if truthy end_date_str then days_until_of end_date_str else None in
  let m := momentum ch24 ch1w in
  let v := log_score vol24 in
  let l := log_score liq in
  let sp := spread_factor spr in
  let u := uncertainty price in
  let t := Fin (inject_Z (timing days)) in
  let e := engagement cc featured in
  let total :=
    pf_add (pf_add (pf_add (pf_add (pf_add (pf_add
      (pf_scale m (25 # 100)) (pf_scale v (20 # 100)))
      (pf_scale l (15 # 100))) (pf_scale sp (10 # 100)))
      (pf_scale u (15 # 100))) (pf_scale t (10 # 100)))
      (pf_scale e (5 # 100)) in
  let* bb := if truthy (get market "bestBid")
             then (let* f := float_of (get market "bestBid") in Ok (Some f))
             else Ok None in
  let* ba := if truthy (get market "bestAsk")
             then (let* f := float_of (get market "bestAsk") in Ok (Some f))
             else Ok None in
  let* vol := float_or market "volume" (PInt 0) in
  let* labels := tag_labels (get_default event "tags" (PList [])) in
  Ok {| yes_price := price; no_price := pf_sub (Fin 1) price;
        best_bid := bb; best_ask := ba; spread := spr; volume := vol;
        volume_24h := vol24; volume_1w := vol1w; liquidity := liq;
        one_hour_change := ch1h; one_day_change := ch24;
        one_week_change := ch1w; one_month_change := ch1m;
        competitive := comp; comment_count := cc; is_featured := featured;
        days_until_resolution := days; tags := labels;
        opportunity_score := round1 total;
        score_breakdown := {| momentum_score := round1 m;
                              volume_score := round1 v;
                              liquidity_score := round1 l;
                              spread_score := round1 sp;
                              uncertainty_score := round1 u;
                              timing_score := round1 t;
                              engagement_score := round1 e |} |}.

End Score.

End Scorer.

(* ================================================================== *)
(** ** Ranking ([get_top_opportunities], lines 177-179) *)

(** [analyzed_markets.sort(key=lambda x: x["opportunity_score"], reverse=True)]
    followed by [analyzed_markets[:limit]].  The keys are Python floats,
    NaN included (a market whose [lastTradePrice] is "nan" scores NaN). *)
Module Ranking.
Import Py.

(** [a < b] on the exact values. *)
Definition Qltb (a b : Q) : bool := negb (Qle_bool b a).

Section Sort.
Variable A : Type.

(** The builtin [list.sort(key=..., reverse=...)] of CPython, which
    rearranges the list by comparing keys with [<] only. *)
Variable list_sort : (A -> pyfloat) -> bool -> list A -> list A.

(** [lambda x: x["opportunity_score"]] *)
Variable key : A -> pyfloat.

(** [l[:limit]] for a Python integer [limit]. *)
Definition slice_upto (l : list A) (limit : Z) : list A :=
  if 0 <=? limit then firstn (Z.to_nat limit) l
  else firstn (List.length l - Z.to_nat (- limit)) l.

(** Lines 175-179, on the list [analyzed_markets] built by the loop. *)
Definition get_top_opportunities (analyzed_markets : list A) (limit : Z)
  : list A :=
  slice_upto (list_sort key true analyzed_markets) limit.

End Sort.

Arguments slice_upto {A} l limit.
Arguments get_top_opportunities {A} list_sort key analyzed_markets limit.

End Ranking.

(* ================================================================== *)
(** ** Admission and caching gate ([main.py]) *)

Module Gate.
Import Ranking.

(** [_rate_limit_store]: a [defaultdict] of deques of [time.time()]
    readings, keyed by ["<client_ip>:<endpoint>"]; a missing key reads as
    an empty deque. *)
Definition store := string -> list Q.

Definition empty_store : store := fun _ => [].

Definition update (st : store) (k : string) (v : list Q) : store :=
  fun k' => if String.eqb k' k then v else st k'.

(** [deque(maxlen=100)] *)
Definition deque_maxlen : nat := 100.

(** [deque.append] on a bounded deque drops items from the left. *)
Definition deque_append (maxlen : nat) (d : list Q) (x : Q) : list Q :=
  let d' := (d ++ [x])%list in skipn (List.length d' - maxlen) d'.

(** [while requests and requests[0] < window_start: requests.popleft()] *)
Fixpoint evict (window_start : Q) (requests : list Q) : list Q :=
  match requests with
  | t :: rest => if Qltb t window_start then evict window_start rest else requests
  | [] => []
  end.

Definition rate_key (client_ip endpoint : string) : string :=
  (client_ip ++ ":" ++ endpoint)%string.

(** [check_rate_limit]: the decision and the store after the call
    ([now] is the [time.time()] reading of the call). *)
Definition check_rate_limit (st : store) (client_ip endpoint : string)
    (max_requests window_seconds : Z) (now : Q) : bool * store :=
  let key := rate_key client_ip endpoint in
  let window_start := (now - inject_Z window_seconds)%Q in
  let requests := evict window_start (st key) in
  if max_requests <=? Z.of_nat (List.length requests)
  then (false, update st key requests)
  else (true, update st key (deque_append deque_maxlen requests now)).

(** The admission rule in the words of the specification: drop every
    timestamp older than [now - window_seconds], admit and record [now]
    iff fewer than [max_requests] remain. *)
Definition admit_spec (st : store) (client_ip endpoint : string)
    (max_requests window_seconds : Z) (now : Q) : bool * store :=
  let key := rate_key client_ip endpoint in
  let window_start := (now - inject_Z window_seconds)%Q in
  let remaining := filter (fun t => Qle_bool window_start t) (st key) in
  if Z.of_nat (List.length remaining) <? max_requests
  then (true, update st key (remaining ++ [now])%list)
  else (false, update st key remaining).

(** A sequence of attempts on one key, with their clock readings. *)
Fixpoint run_attempts (step : store -> Q -> bool * store) (st : store)
    (times : list Q) : list bool :=
  match times with
  | [] => []
  | t :: ts => let (ok, st') := step st t in ok :: run_attempts step st' ts
  end.

(** The settings read by [get_markets]. *)
Record Settings : Type := mkSettings {
  rate_limit_markets : Z;
  cache_ttl : Z
}.

Section Markets.
(** The list of [MarketInfo] served by [/markets]. *)
Variable D : Type.

(** [_market_cache] together with the rate-limiter store. *)
Record GateState : Type := mkGate {
  rate_store : store;
  cache_data : option D;
  cache_timestamp : option Q
}.

Inductive Response : Type :=
| Markets (data : D)
| HttpError (status : Z).

(** The test of lines 130-132: the cached data when it is present, has a
    timestamp and is younger than the TTL ([now] and the timestamp are
    [datetime.now()] readings, in seconds). *)
Definition fresh_entry (g : GateState) (settings : Settings) (now : Q) : option D :=
  match cache_data g, cache_timestamp g with
  | Some d, Some ts =>
      if Qltb (now - ts) (inject_Z (cache_ttl settings)) then Some d else None
  | _, _ => None
  end.

(** [get_markets] for a request from [client_ip]: [clock] is the
    [time.time()] reading of the rate limiter, [now] the [datetime.now()]
    reading, and [fetched] the outcome of the upstream fetch followed by
    the [MarketInfo] conversion ([None] when either raises).  The result
    also says whether the upstream fetch was started. *)
Definition get_markets (g : GateState) (settings : Settings)
    (client_ip : string) (clock now : Q) (fetched : option D)
  : Response * bool * GateState :=
  let (allowed, rs) := check_rate_limit (rate_store g) client_ip "markets"
                         (rate_limit_markets settings) 60 clock in
  let g1 := mkGate rs (cache_data g) (cache_timestamp g) in
  if negb allowed then (HttpError 429, false, g1)
  else
    match fresh_entry g settings now with
    | Some d => (Markets d, false, g1)
    | None =>
        match fetched with
        | Some result => (Markets result, true, mkGate rs (Some result) (Some now))
        | None =>
            match cache_data g with
            | Some d => (Markets d, true, g1)
            | None => (HttpError 500, true, g1)
            end
        end
    end.

End Markets.

Arguments mkGate {D} rate_store cache_data cache_timestamp.
Arguments rate_store {D} g.
Arguments cache_data {D} g.
Arguments cache_timestamp {D} g.
Arguments Markets {D} data.
Arguments HttpError {D} status.
Arguments fresh_entry {D} g settings now.
Arguments get_markets {D} g settings client_ip clock now fetched.

End Gate.

(* ================================================================== *)
(** ** Paper-trading ledger ([main.py], [models.py], [schemas.py]) *)

Module Ledger.
Import Py Ranking.
Local Open Scope string_scope.

Inductive TradeDirection : Type := YES | NO.
Inductive TradeStatus : Type := ACTIVE | CLOSED.

(** A row of the [trades] table (the timestamps are left out). *)
Record Trade : Type := mkTrade {
  id : Z;
  market_id : string;
  market_question : string;
  direction : TradeDirection;
  amount : Q;
  entry_price : option Q;
  current_price : option Q;
  status : TradeStatus
}.

(** The database: the balance of the first [portfolio] row, if any, and
    the [trades] rows in table order. *)
Record Db : Type := mkDb {
  portfolio : option Q;
  trades : list Trade
}.

(** The body of [/simulate-trade], with the declared field types. *)
Record SimulateTradeRequest : Type := mkRequest {
  req_market_id : string;
  req_market_question : string;
  req_amount : Q;
  req_direction : string;
  req_price : Q
}.

Inductive TradeResponse : Type :=
| TradeOk (trade : Trade) (new_balance : Q)
| ValidationError (errors : list (string * string))
| HttpError (status_code : Z) (detail : string).

(** [round(v, 2)] *)
Definition round2 (v : Q) : Q := Qmake (Scorer.round_half_even (v * 100)) 100.

(** [amount: float = Field(gt=0, le=1000000)] followed by
    [validate_amount]: the error, or the rounded amount. *)
Definition validate_amount (v : Q) : string + Q :=
  if negb (Qltb 0 v) then inl "Input should be greater than 0"%string
  else if negb (Qle_bool v 1000000) then
    inl "Input should be less than or equal to 1000000"%string
  else if Qltb v 1 then inl "Value error, Minimum trade amount is $1"%string
  else inr (round2 v).

(** [validate_direction] *)
Definition direction_of_string (d : string) : option TradeDirection :=
  if String.eqb d "YES" then Some YES
  else if String.eqb d "NO" then Some NO
  else None.

Definition validate_direction (d : string) : option string :=
  match direction_of_string d with
  | Some _ => None
  | None => Some "Value error, Direction must be YES or NO"
  end.

(** [price: float = Field(ge=0.0, le=1.0)] *)
Definition validate_price (p : Q) : option string :=
  if negb (Qle_bool 0 p) then Some "Input should be greater than or equal to 0"
  else if negb (Qle_bool p 1) then Some "Input should be less than or equal to 1"
  else None.

(** Pydantic reports the errors of every field. *)
Definition validation_errors (req : SimulateTradeRequest) : list (string * string) :=
  (match validate_amount (req_amount req) with
   | inl m => [("amount", m)]
   | inr _ => []
   end
   ++ match validate_direction (req_direction req) with
      | Some m => [("direction", m)]
      | None => []
      end
   ++ match validate_price (req_price req) with
      | Some m => [("price", m)]
      | None => []
      end)%list.

(** The next [INTEGER PRIMARY KEY]: one more than the largest id. *)
Definition next_id (ts : list Trade) : Z :=
  1 + fold_left (fun m t => Z.max m (id t)) ts 0.

Definition simulate_trade (db : Db) (req : SimulateTradeRequest) : TradeResponse * Db :=
  match validation_errors req, validate_amount (req_amount req) with
  | [], inr amt =>
      match portfolio db with
      | None => (HttpError 404 "Portfolio not found", db)
      | Some balance =>
          if Qle_bool amt 0 then (HttpError 400 "Amount must be positive", db)
          else if Qltb balance amt then (HttpError 400 "Insufficient balance", db)
          else match direction_of_string (req_direction req) with
               | None => (HttpError 400 "Direction must be YES or NO", db)
               | Some dir =>
                   let trade := mkTrade (next_id (trades db)) (req_market_id req)
                                  (req_market_question req) dir amt
                                  (Some (req_price req)) (Some (req_price req)) ACTIVE in
                   (* UPDATE portfolio SET balance = balance - :amount *)
                   let balance' := (balance - amt)%Q in
                   (TradeOk trade balance',
                    mkDb (Some balance') (trades db ++ [trade])%list)
               end
      end
  | errs, _ => (ValidationError errs, db)
  end.

(** Truthiness of a nullable float column. *)
Definition truthy_price (p : option Q) : bool :=
  match p with
  | Some q => negb (Qeq_bool q 0)
  | None => false
  end.

(** Python's float division. *)
Definition py_div (a b : Q) : result Q :=
  if Qeq_bool b 0 then Raise ZeroDivisionError else Ok (a / b)%Q.

Definition price_or_zero (p : option Q) : Q :=
  match p with Some q => q | None => 0%Q end.

(** The theoretical PnL of [get_portfolio], lines 281-287. *)
Definition trade_pnl (t : Trade) : result Q :=
  if truthy_price (current_price t) && truthy_price (entry_price t) then
    let c := price_or_zero (current_price t) in
    let e := price_or_zero (entry_price t) in
    match direction t with
    | YES => py_div ((c - e) * amount t) e
    | NO => py_div ((e - c) * amount t) e
    end
  else Ok 0%Q.

(** [TradeInfo(...)]: [entry_price: float] rejects a null column. *)
Definition trade_info (t : Trade) (pnl : Q) : result (Trade * Q) :=
  match entry_price t with
  | Some _ => Ok (t, pnl)
  | None => Raise PydanticValidationError
  end.

Inductive PortfolioResponse : Type :=
| PortfolioInfo (balance : Q) (active_trades : list (Trade * Q)) (total_pnl : Q)
| PortfolioNotFound.

Definition is_active (t : Trade) : bool :=
  match status t with ACTIVE => true | CLOSED => false end.

(** The loop of [get_portfolio]: the trade infos and [total_pnl]. *)
Fixpoint portfolio_loop (ts : list Trade) (total_pnl : Q)
  : result (list (Trade * Q) * Q) :=
  match ts with
  | [] => Ok ([], total_pnl)
  | t :: rest =>
      let* pnl := trade_pnl t in
      let* info := trade_info t pnl in
      let* r := portfolio_loop rest (total_pnl + pnl)%Q in
      Ok (info :: fst r, snd r)
  end.

(** [db.query(Trade).filter(Trade.status == TradeStatus.ACTIVE).all()]
    has no ORDER BY: the rows come in the order of the scan the database
    chooses (for SQLite, the index [idx_trade_status_market], that is by
    market id).  [scan] is that order, applied to the active trades taken
    in table order. *)
Section Query.
Variable scan : list Trade -> list Trade.

Definition get_portfolio (db : Db) : result PortfolioResponse :=
  match portfolio db with
  | None => Ok PortfolioNotFound
  | Some balance =>
      let* r := portfolio_loop (scan (filter is_active (trades db))) 0%Q in
      Ok (PortfolioInfo balance (fst r) (snd r))
  end.

End Query.

End Ledger.

(* ================================================================== *)
(** ** More Python builtins: iteration, dict methods, mixed comparisons *)

Module PyExtra.
Import Py.

(** [for x in v]: a list yields its items, a dict its keys, a string its
    characters; the other JSON values are not iterable. *)
Definition py_iter (v : pyval) : result (list pyval) :=
  match v with
  | PList l => Ok l
  | PDict d => Ok (map (fun kv => PStr (fst kv)) d)
  | PStr s => Ok (map (fun c => PStr (String c EmptyString)) (list_ascii_of_string s))
  | _ => Raise TypeError
  end.

(** A dict method call ([v.get], [v.setdefault]): among the JSON values
    only dicts have these attributes. *)
Definition as_dict (v : pyval) : result dict :=
  match v with
  | PDict d => Ok d
  | _ => Raise AttributeError
  end.

(** [v == s] for a string [s]. *)
Definition eq_str (v : pyval) (s : string) : bool :=
  match v with
  | PStr s' => String.eqb s' s
  | _ => false
  end.

(** [v in l] for a list of strings. *)
Definition in_str_list (v : pyval) (l : list string) : bool :=
  match v with
  | PStr s => existsb (String.eqb s) l
  | _ => false
  end.

(** [v in ids] for a set of strings: an unhashable value raises. *)
Definition in_str_set (v : pyval) (ids : list string) : result bool :=
  match v with
  | PStr s => Ok (existsb (String.eqb s) ids)
  | PList _ | PDict _ => Raise TypeError
  | _ => Ok false
  end.

(** [k in d] *)
Definition has_key {A} (d : list (string * A)) (k : string) : bool :=
  existsb (fun kv => String.eqb (fst kv) k) d.

(** [d[k] = v]: an existing key keeps its position, a new key goes last. *)
Fixpoint dict_set {A} (d : list (string * A)) (k : string) (v : A)
  : list (string * A) :=
  match d with
  | [] => [(k, v)]
  | (k', v') :: d' =>
      if String.eqb k k' then (k', v) :: d' else (k', v') :: dict_set d' k v
  end.

(** [d.setdefault(k, v)], its return value unused. *)
Definition setdefault (d : dict) (k : string) (v : pyval) : dict :=
  if has_key d k then d else (d ++ [(k, v)])%list.

(** The numeric value of a bool, an int or a float. *)
Definition num_value (v : pyval) : option pyfloat :=
  match v with
  | PBool b => Some (Fin (if b then 1 else 0)%Q)
  | PInt z => Some (Fin (inject_Z z))
  | PFloat f => Some f
  | _ => None
  end.

(** [a < b] between numbers; ordering a number against [None], a string,
    a list or a dict raises [TypeError]. *)
Definition num_lt (a b : pyval) : result bool :=
  match num_value a, num_value b with
  | Some x, Some y => Ok (pf_lt x y)
  | _, _ => Raise TypeError
  end.

(** [min(a, b)] and [max(a, b)] on Python objects. *)
Definition py_min_val (a b : pyval) : result pyval :=
  let* lt := num_lt b a in Ok (if lt then b else a).

Definition py_max_val (a b : pyval) : result pyval :=
  let* lt := num_lt a b in Ok (if lt then b else a).

(** [str(n)] for a natural number. *)
Fixpoint digits_of (fuel n : nat) (acc : string) : string :=
  match fuel with
  | O => acc
  | S fuel' =>
      let acc' := String (ascii_of_nat (48 + Nat.modulo n 10)) acc in
      if (n <? 10)%nat then acc' else digits_of fuel' (Nat.div n 10) acc'
  end.

Definition string_of_nat (n : nat) : string := digits_of (S n) n EmptyString.

(** [map] of a function that may raise, stopping at the first exception. *)
Fixpoint map_result {A B} (f : A -> result B) (l : list A) : result (list B) :=
  match l with
  | [] => Ok []
  | x :: l' => let* y := f x in let* r := map_result f l' in Ok (y :: r)
  end.

End PyExtra.

(* ================================================================== *)
(** ** Upstream market fetching ([services/polymarket_service.py]) *)

Module Service.
Import Py PyExtra Normalizer.

(** An HTTP response of the upstream API: its status and the outcome of
    decoding its body as JSON (the value, or the exception that
    [response.json()] raises). *)
Record HttpResponse : Type := mkResponse {
  status_code : Z;
  json_body : result pyval
}.

Definition response_json (r : HttpResponse) : result pyval := json_body r.

(** The dicts built by [get_market_by_id] and [get_markets_batch]. *)
Record MarketQuote : Type := mkQuote {
  quote_id : pyval;
  quote_question : pyval;
  quote_yes : pyfloat;
  quote_no : pyfloat
}.

(** The [MarketInfo] response model of [/markets]. *)
Record MarketInfo : Type := mkMarketInfo {
  mi_id : string;
  mi_question : string;
  mi_description : option string;
  mi_yes_price : pyfloat;
  mi_no_price : pyfloat;
  mi_best_bid : option pyfloat;
  mi_best_ask : option pyfloat;
  mi_last_trade_price : option pyfloat;
  mi_volume : option pyfloat;
  mi_volume_24h : option pyfloat;
  mi_liquidity : option pyfloat;
  mi_spread : option pyfloat;
  mi_one_day_change : option pyfloat;
  mi_one_week_change : option pyfloat;
  mi_one_month_change : option pyfloat;
  mi_end_date : option string;
  mi_image : option string
}.

(** Pydantic's [str] and [Optional[str]] fields (a non-string is refused). *)
Definition validate_str (v : pyval) : result string :=
  match v with
  | PStr s => Ok s
  | _ => Raise PydanticValidationError
  end.

Definition validate_opt_str (v : pyval) : result (option string) :=
  match v with
  | PNone => Ok None
  | PStr s => Ok (Some s)
  | _ => Raise PydanticValidationError
  end.

(** The [MarketInfo] built from the keys of a normalized market (extra keys ignored;
    float fields accept every float, NaN and infinities included). *)
Definition market_info_of (s : MarketSnapshot) : result MarketInfo :=
  let* i := validate_str (snap_id s) in
  let* q := validate_str (question s) in
  let* d := validate_opt_str (description s) in
  let* e := validate_opt_str (end_date s) in
  let* im := validate_opt_str (image s) in
  Ok {| mi_id := i; mi_question := q; mi_description := d;
        mi_yes_price := yes_price s; mi_no_price := no_price s;
        mi_best_bid := best_bid s; mi_best_ask := best_ask s;
        mi_last_trade_price := last_trade_price s;
        mi_volume := Some (volume s); mi_volume_24h := Some (volume_24h s);
        mi_liquidity := Some (liquidity s); mi_spread := Some (spread s);
        mi_one_day_change := Some (one_day_change s);
        mi_one_week_change := Some (one_week_change s);
        mi_one_month_change := Some (one_month_change s);
        mi_end_date := e; mi_image := im |}.

(** The default of [market.get("outcomePrices", ...)]: the JSON text of
    the list of the two strings "0.5". *)
Definition dq : string := String (ascii_of_nat 34) EmptyString.

Definition default_outcome_prices : string :=
  ("[" ++ dq ++ "0.5" ++ dq ++ ", " ++ dq ++ "0.5" ++ dq ++ "]")%string.

Section Fetch.
Variable json_loads : string -> result pyval.
Variable days_until_of : pyval -> option Z.

(** The inner loop of [fetch_active_markets] (lines 122-126), also the
    inner loop of [search_markets] (lines 154-157). *)
Fixpoint collect_event_markets (event : dict) (ms : list pyval)
  : result (list MarketSnapshot) :=
  match ms with
  | [] => Ok []
  | m :: rest =>
      let* md := as_dict m in
      if truthy (get_default md "active" (PBool true)) then
        let* s := _parse_market json_loads days_until_of md event in
        let* r := collect_event_markets event rest in
        Ok (s :: r)
      else collect_event_markets event rest
  end.

Fixpoint collect_events (evs : list pyval) : result (list MarketSnapshot) :=
  match evs with
  | [] => Ok []
  | e :: rest =>
      let* ed := as_dict e in
      let* ms := py_iter (get_default ed "markets" (PList [])) in
      let* here := collect_event_markets ed ms in
      let* r := collect_events rest in
      Ok (here ++ r)%list
  end.

(** [fetch_active_markets] and [search_markets] after the request: the
    loop over [events = response.json()]. *)
Definition markets_of_events (events : pyval) : result (list MarketSnapshot) :=
  let* evs := py_iter events in collect_events evs.

(** The [try] block of [/markets] (lines 136-144): [fetched] is the body
    of the upstream response, [None] when the request, [raise_for_status]
    or [response.json()] raises; the result is [None] when anything in
    the block raises. *)
Definition markets_listing (fetched : option pyval) : option (list MarketInfo) :=
  match fetched with
  | None => None
  | Some events =>
      match (let* ms := markets_of_events events in map_result market_info_of ms) with
      | Ok l => Some l
      | Raise _ => None
      end
  end.

(** The dict built from a raw market (lines 184-191, 194-201, 246-251). *)
Definition quote_of (market : dict) : result MarketQuote :=
  let* p := parse_outcome_prices json_loads
              (get_default market "outcomePrices" (PStr default_outcome_prices)) in
  Ok {| quote_id := get_default market "conditionId" (PStr "");
        quote_question := get_default market "question" (PStr "");
        quote_yes := fst p; quote_no := snd p |}.

(** The search of lines 182-191. *)
Fixpoint find_market (market_id : string) (data : list pyval)
  : result (option MarketQuote) :=
  match data with
  | [] => Ok None
  | m :: rest =>
      let* md := as_dict m in
      if eq_str (get md "conditionId") market_id then
        let* q := quote_of md in Ok (Some q)
      else find_market market_id rest
  end.

(** [get_market_by_id]: [r1] is the response of [/markets/{id}], [r2]
    the response of the query endpoint, requested when [r1] is not a 200. *)
Definition get_market_by_id (market_id : string) (r1 r2 : HttpResponse)
  : result (option MarketQuote) :=
  let response := if status_code r1 =? 200 then r1 else r2 in
  if status_code response =? 200 then
    let* data := response_json response in
    match data with
    | PList l => find_market market_id l
    | PDict m => let* q := quote_of m in Ok (Some q)
    | _ => Ok None
    end
  else Ok None.

(** The scan of [get_markets_batch] over the markets of one event. *)
Fixpoint batch_scan_markets (ids : list string) (ms : list pyval)
    (acc : list (string * MarketQuote)) : result (list (string * MarketQuote)) :=
  match ms with
  | [] => Ok acc
  | m :: rest =>
      let* md := as_dict m in
      let condition_id := get_default md "conditionId" (PStr "") in
      let* found := in_str_set condition_id ids in
      match found, condition_id with
      | true, PStr k =>
          let* q := quote_of md in batch_scan_markets ids rest (dict_set acc k q)
      | _, _ => batch_scan_markets ids rest acc
      end
  end.

Fixpoint batch_scan (ids : list string) (evs : list pyval)
    (acc : list (string * MarketQuote)) : result (list (string * MarketQuote)) :=
  match evs with
  | [] => Ok acc
  | e :: rest =>
      let* ed := as_dict e in
      let* ms := py_iter (get_default ed "markets" (PList [])) in
      let* acc' := batch_scan_markets ids ms acc in
      batch_scan ids rest acc'
  end.

(** [get_markets_batch]: [r1] is the response for the active events,
    [r2] the response for the closed events (requested only when some
    ids are still missing).  The dict is an association list in insertion
    order; the sets [market_id_set] and [missing_ids] are lists with the
    same membership.  The source has no other branch: the two status
    tests and the two emptiness tests below are all its conditionals
    outside the scans. *)
Definition get_markets_batch (market_ids : list string) (r1 r2 : HttpResponse)
  : result (list (string * MarketQuote)) :=
  match market_ids with
  | [] => Ok []                                      (* l. 214: if not market_ids *)
  | _ =>
      if negb (status_code r1 =? 200) then Ok []     (* l. 232: status != 200 *)
      else
        let* events := response_json r1 in           (* l. 236 *)
        let* _ := py_len events in                   (* l. 237: len(events) in the log *)
        let* evs := py_iter events in                (* l. 240: for event in events *)
        let* market_map := batch_scan market_ids evs [] in
        (* l. 256: market_id_set - set(market_map.keys()) *)
        let missing_ids := filter (fun i => negb (has_key market_map i)) market_ids in
        match missing_ids with
        | [] => Ok market_map                        (* l. 257: if missing_ids *)
        | _ =>
            if status_code r2 =? 200 then            (* l. 270 *)
              let* events2 := response_json r2 in    (* l. 271 *)
              let* evs2 := py_iter events2 in        (* l. 272 *)
              batch_scan missing_ids evs2 market_map
            else Ok market_map
        end                                          (* l. 289: return market_map *)
  end.

End Fetch.

End Service.

(* ================================================================== *)
(** ** Client identification ([get_client_ip], [main.py]) *)

Module Client.
Import Py.

(** The characters removed by [str.strip()] from a header value (decoded
    as latin-1): the ASCII whitespace, U+0085 and U+00A0. *)
Definition is_header_space (c : ascii) : bool :=
  is_space c || (nat_of_ascii c =? 133)%nat || (nat_of_ascii c =? 160)%nat.

Fixpoint drop_header_spaces (cs : list ascii) : list ascii :=
  match cs with
  | c :: r => if is_header_space c then drop_header_spaces r else cs
  | [] => []
  end.

Definition strip_header (cs : list ascii) : list ascii :=
  rev (drop_header_spaces (rev (drop_header_spaces cs))).

(** [s.split(",")[0]] *)
Fixpoint before_comma (cs : list ascii) : list ascii :=
  match cs with
  | [] => []
  | c :: r => if Ascii.eqb c ","%char then [] else c :: before_comma r
  end.

(** [get_client_ip]: [forwarded] is the [X-Forwarded-For] header,
    [client_host] the peer address of the connection, if known. *)
Definition get_client_ip (forwarded client_host : option string) : string :=
  let fallback := match client_host with
                  | Some h => h
                  | None => "unknown"%string
                  end in
  match forwarded with
  | Some f =>
      if negb (String.eqb f EmptyString)
      then string_of_list_ascii (strip_header (before_comma (list_ascii_of_string f)))
      else fallback
  | None => fallback
  end.

End Client.

(* ================================================================== *)
(** ** Portfolio maintenance ([main.py]: startup, reset, price update) *)

Module LedgerOps.
Import Py PyExtra Ledger Service.
Local Open Scope string_scope.

Inductive ResetResponse : Type :=
| ResetOk (balance : Q) (message : string)
| ResetNotFound.

(** [/reset-portfolio] with [settings.initial_balance]: the balance is
    reset and every trade row is deleted. *)
Definition reset_portfolio (initial_balance : Q) (db : Db) : ResetResponse * Db :=
  match portfolio db with
  | None => (ResetNotFound, db)
  | Some _ =>
      (ResetOk initial_balance "Portfolio reset successfully",
       mkDb (Some initial_balance) [])
  end.

(** The startup code of [lifespan]: a portfolio row is created when the
    table has none. *)
Definition lifespan_init (initial_balance : Q) (db : Db) : Db :=
  match portfolio db with
  | Some _ => db
  | None => mkDb (Some initial_balance) (trades db)
  end.

Record PriceUpdateResponse : Type := mkPriceUpdate {
  pu_success : bool;
  pu_updated_count : nat;
  pu_message : string
}.

(** The loop of [update_trade_prices]: [lookup t] is the outcome of
    [get_market_by_id(t.market_id)] for the trade [t] ([None] when the call
    raises).  Returns the assignments [trade.current_price = new_price]
    performed, by trade id, and [updated_count]. *)
Fixpoint update_loop (lookup : Trade -> option (option MarketQuote)) (ts : list Trade)
  : list (Z * pyfloat) * nat :=
  match ts with
  | [] => ([], O)
  | t :: rest =>
      let '(asg, n) := update_loop lookup rest in
      match lookup t with
      | Some (Some market) =>
          let new_price := match direction t with
                           | YES => quote_yes market
                           | NO => quote_no market
                           end in
          ((id t, new_price) :: asg, S n)
      | _ => (asg, n)
      end
  end.

Definition update_trade_prices (lookup : Trade -> option (option MarketQuote)) (db : Db)
  : list (Z * pyfloat) * PriceUpdateResponse :=
  let active := filter is_active (trades db) in
  let '(asg, updated_count) := update_loop lookup active in
  (asg, mkPriceUpdate true updated_count
          ("Updated prices for " ++ string_of_nat updated_count ++ " of "
           ++ string_of_nat (List.length active) ++ " active trades")).

(** Set the current price of a trade. *)
Definition with_current_price (t : Trade) (p : option Q) : Trade :=
  mkTrade (id t) (market_id t) (market_question t) (direction t) (amount t)
          (entry_price t) p (status t).

(** The databases the server can reach for a fixed [initial_balance],
    from empty tables: startup, trades, resets, and changes of current
    prices (this covers [update_trade_prices] as long as the stored
    prices are finite or NULL). *)
Inductive reachable (initial_balance : Q) : Db -> Prop :=
| reach_start : reachable initial_balance (lifespan_init initial_balance (mkDb None []))
| reach_restart db :
    reachable initial_balance db -> reachable initial_balance (lifespan_init initial_balance db)
| reach_trade db req :
    reachable initial_balance db -> reachable initial_balance (snd (simulate_trade db req))
| reach_reset db :
    reachable initial_balance db ->
    reachable initial_balance (snd (reset_portfolio initial_balance db))
| reach_prices db (f : Trade -> option Q) :
    reachable initial_balance db ->
    reachable initial_balance
      (mkDb (portfolio db) (map (fun t => with_current_price t (f t)) (trades db))).

End LedgerOps.

(* ================================================================== *)
(** ** Post-processing of the model's answer ([xai_service.analyze_market],
    lines 201-245) *)

Module Analysis.
Import Py PyExtra.
Local Open Scope string_scope.

(** [re.search(r'\{[\s\S]*\}', content)]: from the first "{" to the last
    "}" after it. *)
Fixpoint drop_until (c : ascii) (cs : list ascii) : list ascii :=
  match cs with
  | [] => []
  | x :: r => if Ascii.eqb x c then cs else drop_until c r
  end.

Definition regex_match (content : string) : option string :=
  match drop_until "{"%char (list_ascii_of_string content) with
  | [] => None
  | from_open =>
      match rev (drop_until "}"%char (rev from_open)) with
      | [] => None
      | m => Some (string_of_list_ascii m)
      end
  end.

(** [s.strip('%')] *)
Fixpoint drop_char (c : ascii) (cs : list ascii) : list ascii :=
  match cs with
  | x :: r => if Ascii.eqb x c then drop_char c r else cs
  | [] => []
  end.

Definition strip_char (c : ascii) (s : string) : string :=
  string_of_list_ascii (rev (drop_char c (rev (drop_char c (list_ascii_of_string s))))).

Definition contains_char (c : ascii) (s : string) : bool :=
  existsb (Ascii.eqb c) (list_ascii_of_string s).

(** Line 227 for a string [prob]. *)
Definition prob_of_str (s : string) : result pyval :=
  if contains_char "%"%char s then
    let* f := float_of (PStr (strip_char "%"%char s)) in
    Ok (PFloat (pf_scale f (1 # 100)))
  else
    let* f := float_of (PStr s) in Ok (PFloat f).

Definition valid_actions : list string := ["BUY_YES"; "BUY_NO"; "HOLD"; "SKIP"].
Definition valid_risk_levels : list string := ["low"; "medium"; "high"].

(** Lines 232-245 on the recommendation dict [rec]. *)
Definition normalize_recommendation (rec : dict) : result dict :=
  let rec1 := if in_str_list (get rec "action") valid_actions then rec
              else dict_set rec "action" (PStr "SKIP") in
  let rec2 := if in_str_list (get rec1 "risk_level") valid_risk_levels then rec1
              else dict_set rec1 "risk_level" (PStr "medium") in
  let* rec3 :=
    if is_none (get rec2 "amount") then Ok rec2
    else (let* f := float_of (get rec2 "amount") in
          let* m := py_max_val (PInt 0) (PFloat f) in
          Ok (dict_set rec2 "amount" m)) in
  let* rec4 :=
    if is_none (get rec3 "kelly_fraction") then Ok rec3
    else (let* f := float_of (get rec3 "kelly_fraction") in
          let* m := py_min_val (PFloat (Fin 1)) (PFloat f) in
          let* m' := py_max_val (PFloat (Fin 0)) m in
          Ok (dict_set rec3 "kelly_fraction" m')) in
  Ok rec4.

Section Normalize.
Variable json_loads : string -> result pyval.

(** The dict of the [except json.JSONDecodeError] branch. *)
Definition analysis_fallback (content : string) (current_price : pyfloat) : dict :=
  [("estimated_probability", PFloat current_price); ("confidence", PStr "low");
   ("reasoning", PStr content); ("key_events", PList []); ("risks", PList []);
   ("sources", PList [])].

(** Lines 202-216: only [json.JSONDecodeError] is caught. *)
Definition parse_response (content : string) (current_price : pyfloat) : result pyval :=
  let loaded := match regex_match content with
                | Some m => json_loads m
                | None => json_loads content
                end in
  match loaded with
  | Ok v => Ok v
  | Raise JSONDecodeError => Ok (PDict (analysis_fallback content current_price))
  | Raise e => Raise e
  end.

(** Lines 202-245: the answer [content] of the model, parsed and
    normalized (the citations of lines 248-250 only touch "sources"). *)
Definition normalize_analysis (content : string) (current_price : pyfloat)
  : result dict :=
  let* v := parse_response content current_price in
  let* d0 := as_dict v in
  let d1 := setdefault (setdefault (setdefault (setdefault d0
              "confidence" (PStr "medium")) "key_events" (PList []))
              "risks" (PList [])) "sources" (PList []) in
  let prob := get_default d1 "estimated_probability" (PFloat current_price) in
  let* prob1 := match prob with
                | PStr s => prob_of_str s
                | _ => Ok prob
                end in
  let* m := py_min_val (PFloat (Fin 1)) prob1 in
  let* p := py_max_val (PFloat (Fin 0)) m in
  let d2 := dict_set d1 "estimated_probability" p in
  if has_key d2 "recommendation" && truthy (get d2 "recommendation") then
    let* rec := as_dict (get d2 "recommendation") in
    let* rec' := normalize_recommendation rec in
    Ok (dict_set d2 "recommendation" (PDict rec'))
  else Ok d2.

End Normalize.

End Analysis.

(* ================================================================== *)
(** ** The [/analyze] endpoint ([analyze_market], [main.py]) *)

Module AnalyzeEndpoint.
Import Py PyExtra Service Analysis.
Local Open Scope string_scope.

(** [result[k]] *)
Definition getitem (d : dict) (k : string) : result pyval :=
  if has_key d k then Ok (get d k) else Raise KeyError.

(** [a - current_price] for a float [current_price]: numbers (booleans
    included) subtract, anything else raises. *)
Definition py_sub_num (a : pyval) (b : pyfloat) : result pyfloat :=
  match num_value a with
  | Some x => Ok (pf_sub x b)
  | None => Raise TypeError
  end.

(** A [float] field of a pydantic model (lax mode). *)
Definition validate_float (v : pyval) : result pyfloat :=
  match v with
  | PFloat f => Ok f
  | PInt z => Ok (Fin (inject_Z z))
  | PBool b => Ok (Fin (if b then 1 else 0)%Q)
  | PStr s => match float_of (PStr s) with
              | Ok f => Ok f
              | Raise _ => Raise PydanticValidationError
              end
  | _ => Raise PydanticValidationError
  end.

(** A [List[str]] field. *)
Definition validate_str_list (v : pyval) : result (list string) :=
  match v with
  | PList l => map_result validate_str l
  | _ => Raise PydanticValidationError
  end.

Record AnalysisResult : Type := mkAnalysisResult {
  ar_estimated_probability : pyfloat;
  ar_confidence : string;
  ar_reasoning : string;
  ar_key_events : list string;
  ar_risks : list string;
  ar_sources : list string;
  ar_edge : pyfloat
}.

(** Lines 182-207 on the dict [result] returned by the analysis: the
    edge, the log row (whose other fields never raise on these values)
    and the response model; the [recommendation] is not passed on. *)
Definition analyze_result (result : dict) (current_price : Q) : Py.result AnalysisResult :=
  let* prob := getitem result "estimated_probability" in
  let* edge := py_sub_num prob (Fin current_price) in
  let* reasoning := getitem result "reasoning" in
  let* p := validate_float prob in
  let* c := validate_str (get_default result "confidence" (PStr "medium")) in
  let* r := validate_str reasoning in
  let* ke := validate_str_list (get_default result "key_events" (PList [])) in
  let* rs := validate_str_list (get_default result "risks" (PList [])) in
  let* so := validate_str_list (get_default result "sources" (PList [])) in
  Ok (mkAnalysisResult p c r ke rs so edge).

Inductive AnalyzeResponse : Type :=
| AnalyzeOk (r : AnalysisResult)
| AnalyzeHttpError (status_code : Z).

(** [analyze_market] after the rate limiter has admitted the request:
    [analysis] is the outcome of [xai_service.analyze_market]; every
    exception becomes a 500. *)
Definition analyze_endpoint (analysis : Py.result dict) (current_price : Q) : AnalyzeResponse :=
  match (let* d := analysis in analyze_result d current_price) with
  | Ok r => AnalyzeOk r
  | Raise _ => AnalyzeHttpError 500
  end.

End AnalyzeEndpoint.

(* ================================================================== *)
(** ** Theorems: the normalizer *)

Module NormalizerFacts.
Import Py Normalizer.
Open Scope string_scope.

(** A market whose last traded price is a non-numeric string. *)
Definition market_bad_last_trade : dict := [("lastTradePrice", PStr "abc")].

(** A market whose volume is a non-numeric string (its price is fine). *)
Definition market_bad_volume : dict :=
  [("lastTradePrice", PStr "0.42"); ("volume", PStr "n/a")].

Lemma clamp_price_range (y : pyfloat) :
  exists q, clamp_price y = Fin q /\ (1 # 1000 <= q)%Q /\ (q <= 999 # 1000)%Q.
Proof.
  unfold clamp_price, py_max, py_min.
  destruct y as [x| | |]; simpl.
  - destruct (Qle_bool (999 # 1000) x) eqn:H1; simpl.
    + exists (999 # 1000). split; [reflexivity | split; vm_compute; discriminate].
    + apply Bool.not_true_iff_false in H1. rewrite Qle_bool_iff in H1.
      apply Qnot_le_lt in H1.
      destruct (Qle_bool x (1 # 1000)) eqn:H2; simpl.
      * exists (1 # 1000). split; [reflexivity | split; vm_compute; discriminate].
      * apply Bool.not_true_iff_false in H2. rewrite Qle_bool_iff in H2.
        apply Qnot_le_lt in H2.
        exists x. split; [reflexivity | split; apply Qlt_le_weak; assumption].
  - exists (999 # 1000). split; [reflexivity | split; vm_compute; discriminate].
  - exists (1 # 1000). split; [reflexivity | split; vm_compute; discriminate].
  - exists (999 # 1000). split; [reflexivity | split; vm_compute; discriminate].
Qed.

(** C1 (code defect): a market whose [lastTradePrice] is the string "abc"
    makes the normalizer raise [ValueError] instead of degrading to a
    default, whatever the JSON parser and the clock. *)
Theorem parse_market_raises_on_malformed_price :
  forall json_loads days_until_of,
    _parse_market json_loads days_until_of market_bad_last_trade [] =
    Raise ValueError.
Proof. intros. reflexivity. Qed.

Lemma parse_market_raises_on_malformed_volume :
  forall json_loads days_until_of,
    _parse_market json_loads days_until_of market_bad_volume [] =
    Raise ValueError.
Proof. intros. reflexivity. Qed.

(** C4: every snapshot returned by the normalizer has a finite [yes_price]
    in [0.001, 0.999] and [no_price = 1 - yes_price], recomputed from the
    clamped [yes_price] whatever price source was used, so that
    [yes_price + no_price = 1]. *)
Theorem parse_market_price_invariant :
  forall json_loads days_until_of market event s,
    _parse_market json_loads days_until_of market event = Ok s ->
    exists y, yes_price s = Fin y /\ (1 # 1000 <= y)%Q /\ (y <= 999 # 1000)%Q
              /\ no_price s = pf_sub (Fin 1) (yes_price s)
              /\ no_price s = Fin (1 - y)
              /\ (y + (1 - y) == 1)%Q.
Proof.
  intros json_loads days_until_of market event s H.
  unfold _parse_market in H.
  destruct (resolve_prices json_loads market) as [[y0 n0]|e]; simpl in H;
    [|discriminate].
  repeat match type of H with
         | context [bind ?m _] => destruct m; simpl in H; [|discriminate]
         end.
  injection H as <-. simpl.
  destruct (clamp_price_range y0) as [q [Hq [Hlo Hhi]]].
  rewrite Hq. exists q.
  split; [reflexivity|]. split; [assumption|]. split; [assumption|].
  split; [reflexivity|]. split; [reflexivity|]. ring.
Qed.

(** A concrete run of [parse_market_price_invariant]: a last traded price
    of 2 is clamped to 0.999. *)
Lemma parse_market_price_invariant_witness :
  exists s,
    _parse_market (fun _ => Raise JSONDecodeError) (fun _ => None)
      [("lastTradePrice", PFloat (Fin 2))] [] = Ok s /\
    exists y, yes_price s = Fin y /\ (1 # 1000 <= y)%Q /\ (y <= 999 # 1000)%Q
              /\ no_price s = pf_sub (Fin 1) (yes_price s)
              /\ no_price s = Fin (1 - y)
              /\ (y + (1 - y) == 1)%Q.
Proof.
  eexists. split; [reflexivity|].
  apply (parse_market_price_invariant (fun _ => Raise JSONDecodeError) (fun _ => None)
           [("lastTradePrice", PFloat (Fin 2))] [] _).
  reflexivity.
Defined.

End NormalizerFacts.

(* ================================================================== *)
(** ** Theorems: the scorer *)

Module ScorerFacts.
Import Py Scorer.
Open Scope string_scope.

(** A market whose last traded price is above 1 and whose spread is
    negative. *)
Definition market_out_of_range : dict :=
  [("lastTradePrice", PStr "1.5"); ("spread", PStr "-0.01")].

(** C3 (code defect): on that market the uncertainty factor is negative and
    the spread factor exceeds 100, whatever [math.log10] and the clock give:
    neither factor is clamped into [0, 100]. *)
Theorem score_factors_leave_range :
  forall log10 days_until_of,
    exists sm,
      calculate_opportunity_score log10 days_until_of market_out_of_range [] = Ok sm
      /\ uncertainty_score (score_breakdown sm) = Fin ((-1000) # 10)
      /\ spread_score (score_breakdown sm) = Fin (1200 # 10)
      /\ ((-1000) # 10 < 0)%Q /\ (100 < 1200 # 10)%Q.
Proof.
  intros log10 days_until_of.
  eexists. split; [reflexivity|].
  split; [reflexivity|]. split; [reflexivity|].
  split; reflexivity.
Qed.

End ScorerFacts.

(* ================================================================== *)
(** ** Theorems: the ranking *)

Module RankingFacts.
Import Ranking.

Lemma Qltb_iff (a b : Q) : Qltb a b = true <-> (a < b)%Q.
Proof.
  unfold Qltb. rewrite Bool.negb_true_iff, <- Bool.not_true_iff_false.
  rewrite Qle_bool_iff. split; [apply Qnot_le_lt | apply Qlt_not_le].
Qed.

Lemma Qltb_false (a b : Q) : Qltb a b = false -> (b <= a)%Q.
Proof.
  unfold Qltb. intro H. apply Bool.negb_false_iff in H.
  apply Qle_bool_iff. exact H.
Qed.

Lemma pf_add_nan_r (x : Py.pyfloat) : Py.pf_add x Py.NaN = Py.NaN.
Proof. destruct x; reflexivity. Qed.

Lemma pf_add_nan_l (x : Py.pyfloat) : Py.pf_add Py.NaN x = Py.NaN.
Proof. destruct x; reflexivity. Qed.

(** The market of the C8 counterexample: its last trade price is the
    string "nan". *)
Definition market_nan_price : Py.dict := [("lastTradePrice"%string, Py.PStr "nan"%string)].

(** The test of [count_run] in CPython's [list.sort]: the list is one
    non-descending run when no key is smaller than the one before it; such
    a list is left as it is. *)
Fixpoint ascending_run (l : list Py.pyfloat) : bool :=
  match l with
  | a :: (b :: _) as rest => negb (Py.pf_lt b a) && ascending_run rest
  | _ => true
  end.

(** C8 (code defect): a market whose [lastTradePrice] is "nan" gets the
    opportunity score NaN (whatever [math.log10] and the end-date parse
    give), and NaN is unordered: [NaN < x] and [x < NaN] are both false.
    So the scores [[1.0, nan, 2.0]], which [reverse=True] turns into
    [[2.0, nan, 1.0]], form one non-descending run for [list.sort], which
    leaves them in place; reversed back, [get_top_opportunities] returns
    them as [[1.0, nan, 2.0]], which is not in descending order since
    [1.0 < 2.0]. *)
Theorem opportunity_score_nan_breaks_order :
  (forall log10 days_until_of,
     exists sm, Scorer.calculate_opportunity_score log10 days_until_of market_nan_price [] = Py.Ok sm
                /\ Scorer.opportunity_score sm = Py.NaN)
  /\ (forall x, Py.pf_lt Py.NaN x = false /\ Py.pf_lt x Py.NaN = false)
  /\ ascending_run (rev [Py.Fin 1; Py.NaN; Py.Fin 2]) = true
  /\ Py.pf_lt (Py.Fin 1) (Py.Fin 2) = true.
Proof.
  split; [|split; [intros x; destruct x; split; reflexivity|repeat split]].
  intros log10 days_until_of. eexists. split; [reflexivity|].
  cbn [Scorer.opportunity_score].
  replace (Py.pf_scale (Scorer.uncertainty Py.NaN) 0.15) with Py.NaN by reflexivity.
  rewrite pf_add_nan_r, !pf_add_nan_l. reflexivity.
Qed.

End RankingFacts.

(* ================================================================== *)
(** ** Theorems: the admission and caching gate *)

Module GateFacts.
Import Ranking RankingFacts Gate.

Lemma update_same st k v : update st k v k = v.
Proof. unfold update. rewrite String.eqb_refl. reflexivity. Qed.

Lemma filter_all_kept (ws t : Q) (l : list Q) :
  (ws <= t)%Q -> Forall (Qle t) l ->
  filter (fun x => Qle_bool ws x) l = l.
Proof.
  intros Hwt Hl. induction Hl as [|x l Hx Hl IH]; simpl; [reflexivity|].
  replace (Qle_bool ws x) with true.
  - rewrite IH. reflexivity.
  - symmetry. apply Qle_bool_iff. eapply Qle_trans; eassumption.
Qed.

(** On a time-ordered record, popping the expired entries from the front
    removes exactly the entries older than the window start. *)
Lemma evict_filter (ws : Q) (l : list Q) :
  StronglySorted Qle l -> evict ws l = filter (fun t => Qle_bool ws t) l.
Proof.
  induction l as [|t l IH]; intros Hs; simpl; [reflexivity|].
  inversion Hs as [|? ? Hs' Ht]; subst.
  destruct (Qltb t ws) eqn:E.
  - unfold Qltb in E. apply Bool.negb_true_iff in E. rewrite E. apply IH. exact Hs'.
  - unfold Qltb in E. apply Bool.negb_false_iff in E. rewrite E.
    rewrite (filter_all_kept ws t l); [reflexivity| |exact Ht].
    apply Qle_bool_iff. exact E.
Qed.

Lemma deque_append_short (d : list Q) (x : Q) :
  (List.length d < deque_maxlen)%nat -> deque_append deque_maxlen d x = (d ++ [x])%list.
Proof.
  intros H. unfold deque_append. rewrite length_app. simpl.
  replace (List.length d + 1 - deque_maxlen)%nat with 0%nat by lia. reflexivity.
Qed.

(** One attempt: with at most 100 admitted requests per window and a
    time-ordered record, [check_rate_limit] is the specified rule. *)
Lemma check_rate_limit_spec st ip ep max_requests window_seconds now :
  max_requests <= 100 -> StronglySorted Qle (st (rate_key ip ep)) ->
  check_rate_limit st ip ep max_requests window_seconds now =
  admit_spec st ip ep max_requests window_seconds now.
Proof.
  intros Hmax Hs. unfold check_rate_limit, admit_spec.
  rewrite evict_filter by exact Hs.
  set (rem := filter _ _).
  destruct (max_requests <=? Z.of_nat (List.length rem)) eqn:E.
  - apply Z.leb_le in E. replace (Z.of_nat (List.length rem) <? max_requests) with false
      by (symmetry; apply Z.ltb_ge; lia). reflexivity.
  - apply Z.leb_gt in E. replace (Z.of_nat (List.length rem) <? max_requests) with true
      by (symmetry; apply Z.ltb_lt; lia).
    rewrite deque_append_short; [reflexivity|]. unfold deque_maxlen. lia.
Qed.

Lemma StronglySorted_filter {B} (R : B -> B -> Prop) (f : B -> bool) l :
  StronglySorted R l -> StronglySorted R (filter f l).
Proof.
  induction l as [|a l IH]; intros Hs; simpl; [constructor|].
  inversion Hs as [|? ? Hs' Ha]; subst.
  destruct (f a); [|apply IH; exact Hs'].
  constructor; [apply IH; exact Hs'|].
  apply Forall_forall. intros x Hx. apply filter_In in Hx.
  rewrite Forall_forall in Ha. apply Ha. apply Hx.
Qed.

Lemma StronglySorted_app_last {B} (R : B -> B -> Prop) l y :
  StronglySorted R l -> Forall (fun a => R a y) l -> StronglySorted R (l ++ [y]).
Proof.
  induction l as [|a l IH]; intros Hs Hf; simpl.
  - constructor; constructor.
  - inversion Hs as [|? ? Hs' Ha]; subst. inversion Hf as [|? ? Hay Hf']; subst.
    constructor; [apply IH; assumption|].
    apply Forall_app. split; [exact Ha | constructor; [exact Hay | constructor]].
Qed.

Definition below_all (times : list Q) (x : Q) : Prop := Forall (Qle x) times.

Lemma runs_agree ip ep max_requests window_seconds (times : list Q) (st : store) :
  max_requests <= 100 ->
  StronglySorted Qle times ->
  StronglySorted Qle (st (rate_key ip ep)) ->
  Forall (below_all times) (st (rate_key ip ep)) ->
  run_attempts (fun st t => check_rate_limit st ip ep max_requests window_seconds t) st times
  = run_attempts (fun st t => admit_spec st ip ep max_requests window_seconds t) st times.
Proof.
  revert st. induction times as [|t ts IH]; intros st Hmax Ht Hs Hb; simpl; [reflexivity|].
  rewrite check_rate_limit_spec by assumption.
  inversion Ht as [|? ? Hts Htt]; subst.
  assert (Hrem : forall ws,
    StronglySorted Qle (filter (fun x => Qle_bool ws x) (st (rate_key ip ep))) /\
    Forall (below_all ts) (filter (fun x => Qle_bool ws x) (st (rate_key ip ep))) /\
    Forall (fun x => x <= t)%Q (filter (fun x => Qle_bool ws x) (st (rate_key ip ep)))).
  { intros ws. split; [apply StronglySorted_filter; exact Hs|].
    split; apply Forall_forall; intros x Hx; apply filter_In in Hx; destruct Hx as [Hx _];
      rewrite Forall_forall in Hb; specialize (Hb x Hx); inversion Hb; assumption. }
  destruct (admit_spec st ip ep max_requests window_seconds t) as [ok st'] eqn:E.
  f_equal. unfold admit_spec in E.
  set (ws := (t - inject_Z window_seconds)%Q) in E.
  destruct (Hrem ws) as [Hs1 [Hb1 Hle1]].
  destruct (Z.of_nat _ <? max_requests); injection E as <- <-;
    apply IH; try assumption; rewrite update_same; try assumption.
  - apply StronglySorted_app_last; assumption.
  - apply Forall_app. split; [exact Hb1|]. constructor; [exact Htt | constructor].
Qed.

(** The limiter is exact up to its capacity: for every key, every
    [max_requests <= 100] (the per-key record is a [deque(maxlen=100)])
    and every window, a sequence
    of attempts with non-decreasing clock readings gets, from the initial
    empty store, exactly the decisions of the specified rule: drop the
    timestamps older than [now - window_seconds], admit and record [now]
    iff fewer than [max_requests] remain.  With 5 requests per 60 s, calls
    at 0, 1, 2, 3, 4 are admitted, a 6th at 5 is denied and a call at 61 is
    admitted. *)
Theorem rate_limit_sliding_window ip ep max_requests window_seconds (times : list Q) :
  max_requests <= 100 ->
  StronglySorted Qle times ->
  run_attempts (fun st t => check_rate_limit st ip ep max_requests window_seconds t)
    empty_store times
  = run_attempts (fun st t => admit_spec st ip ep max_requests window_seconds t)
      empty_store times
  /\ run_attempts (fun st t => check_rate_limit st "1.2.3.4" "markets" 5 60 t)
       empty_store [0; 1; 2; 3; 4; 5; 61]%Q
     = [true; true; true; true; true; false; true].
Proof.
  intros Hmax Ht. split.
  - apply runs_agree; try assumption; constructor.
  - vm_compute. reflexivity.
Qed.

Lemma rate_limit_sliding_window_witness :
  run_attempts (fun st t => check_rate_limit st "1.2.3.4" "markets" 30 60 t)
    empty_store [0; 10; 10; 75]%Q
  = run_attempts (fun st t => admit_spec st "1.2.3.4" "markets" 30 60 t)
      empty_store [0; 10; 10; 75]%Q
  /\ run_attempts (fun st t => check_rate_limit st "1.2.3.4" "markets" 5 60 t)
       empty_store [0; 1; 2; 3; 4; 5; 61]%Q
     = [true; true; true; true; true; false; true].
Proof.
  apply rate_limit_sliding_window.
  - lia.
  - repeat constructor; unfold Qle; simpl; lia.
Defined.

(** C6 (code defect): with [max_requests = 101], 102 attempts at the same
    instant are all admitted by the code (the [deque(maxlen=100)] forgets
    the oldest entry, so the count never reaches 101), while the specified
    rule denies the 102nd. *)
Lemma rate_limit_cap_counterexample :
  run_attempts (fun st t => check_rate_limit st "1.2.3.4" "markets" 101 60 t)
    empty_store (repeat 0%Q 102) = repeat true 102
  /\ run_attempts (fun st t => admit_spec st "1.2.3.4" "markets" 101 60 t)
       empty_store (repeat 0%Q 102) = (repeat true 101 ++ [false])%list.
Proof. split; vm_compute; reflexivity. Qed.

Section MarketsFacts.
Variable D : Type.

(** C5 (as corrected): a request refused by the rate limiter gets a 429
    without touching the cache or the upstream source.  Once admitted: a
    cached entry younger than the TTL is returned without a fetch;
    otherwise the fetch is started, a success replaces the entry (stamped
    with [now]) and is returned, and a failure returns the previous entry,
    even stale, failing with a 500 only when no entry was ever stored. *)
Theorem get_markets_policy (g : GateState D) (settings : Settings)
    (client_ip : string) (clock now : Q) (fetched : option D) :
  let allowed := fst (check_rate_limit (rate_store g) client_ip "markets"
                        (rate_limit_markets settings) 60 clock) in
  let '(resp, started, g') := get_markets g settings client_ip clock now fetched in
  (allowed = false ->
     resp = HttpError 429 /\ started = false /\
     cache_data g' = cache_data g /\ cache_timestamp g' = cache_timestamp g)
  /\ (allowed = true ->
     (forall d, fresh_entry g settings now = Some d ->
        resp = Markets d /\ started = false /\
        cache_data g' = cache_data g /\ cache_timestamp g' = cache_timestamp g)
     /\ (fresh_entry g settings now = None ->
        started = true
        /\ (forall r, fetched = Some r ->
              resp = Markets r /\ cache_data g' = Some r /\
              cache_timestamp g' = Some now)
        /\ (fetched = None ->
              cache_data g' = cache_data g /\ cache_timestamp g' = cache_timestamp g
              /\ (forall d, cache_data g = Some d -> resp = Markets d)
              /\ (cache_data g = None -> resp = HttpError 500)))).
Proof.
  unfold get_markets.
  destruct (check_rate_limit (rate_store g) client_ip "markets"
              (rate_limit_markets settings) 60 clock) as [allowed rs]; simpl.
  destruct allowed; destruct (fresh_entry g settings now) as [d0|] eqn:Hf;
    destruct fetched as [r0|]; destruct (cache_data g) as [c0|] eqn:Hc; simpl;
    repeat split; intros; try discriminate; try congruence.
Qed.

End MarketsFacts.

(** The scenario of the specification, with a TTL of 60 s: the first call
    fetches, a second call 30 s later is served from the cache, a third
    call at 100 s fetches again and, the fetch failing, gets the first
    (stale) result. *)
Example get_markets_stale_scenario :
  let settings := mkSettings 30 60 in
  let g0 := @mkGate nat empty_store None None in
  let '(r1, f1, g1) := get_markets g0 settings "1.2.3.4" 0 0 (Some 7%nat) in
  let '(r2, f2, g2) := get_markets g1 settings "1.2.3.4" 30 30 (Some 8%nat) in
  let '(r3, f3, g3) := get_markets g2 settings "1.2.3.4" 100 100 None in
  (r1, f1, r2, f2, r3, f3) =
  (Markets 7%nat, true, Markets 7%nat, false, Markets 7%nat, true).
Proof. vm_compute. reflexivity. Qed.

(** C5 counterexample: a client that has used up its 30 requests of the
    minute gets a 429 failure although a (stale) cache entry is present. *)
Lemma get_markets_rate_limited_counterexample :
  let settings := mkSettings 30 60 in
  let g := @mkGate nat (update empty_store "1.2.3.4:markets" (repeat 0%Q 30))
             (Some 7%nat) (Some 0%Q) in
  cache_data g = Some 7%nat /\
  fst (fst (get_markets g settings "1.2.3.4" 1 100 None)) = HttpError 429.
Proof. vm_compute. split; reflexivity. Qed.

End GateFacts.

(* ================================================================== *)
(** ** Theorems: the ledger *)

Module LedgerFacts.
Import Py Ranking RankingFacts Ledger.
Local Open Scope string_scope.

Lemma round_half_even_ge_floor (q : Q) : Qfloor q <= Scorer.round_half_even q.
Proof.
  unfold Scorer.round_half_even.
  destruct (negb (Qle_bool (1 # 2) _)); [lia|].
  destruct (negb (Qle_bool _ (1 # 2))); [lia|].
  destruct (Z.even _); lia.
Qed.

Lemma round2_ge_1 (v : Q) : (1 <= v)%Q -> (1 <= round2 v)%Q.
Proof.
  intros H. unfold round2.
  assert (Hf : 100 <= Qfloor (v * 100)).
  { assert (H100 : (inject_Z 100 <= v * 100)%Q).
    { destruct v as [n d]. unfold Qle in *. simpl in *. nia. }
    apply Qfloor_resp_le in H100. rewrite Qfloor_Z in H100. exact H100. }
  pose proof (round_half_even_ge_floor (v * 100)).
  unfold Qle. simpl. lia.
Qed.

Lemma validate_amount_inr (v a : Q) :
  validate_amount v = inr a -> a = round2 v /\ (1 <= v)%Q /\ (v <= 1000000)%Q.
Proof.
  unfold validate_amount.
  destruct (Qltb 0 v) eqn:E1; simpl; [|discriminate].
  destruct (Qle_bool v 1000000) eqn:E2; simpl; [|discriminate].
  destruct (Qltb v 1) eqn:E3; [discriminate|].
  intros H. injection H as <-. apply Qltb_false in E3. apply Qle_bool_iff in E2.
  repeat split; assumption.
Qed.

Lemma validate_amount_inl (v : Q) :
  (exists m, validate_amount v = inl m) <-> ~ ((1 <= v)%Q /\ (v <= 1000000)%Q).
Proof.
  unfold validate_amount.
  destruct (Qltb 0 v) eqn:E1; simpl.
  - destruct (Qle_bool v 1000000) eqn:E2; simpl.
    + destruct (Qltb v 1) eqn:E3.
      * apply Qltb_iff in E3. split; [intros _ [H _]; apply (Qlt_not_le _ _ E3 H)|].
        intros _. eexists. reflexivity.
      * apply Qltb_false in E3. apply Qle_bool_iff in E2.
        split; [intros [m Hm]; discriminate Hm|]. intros H. exfalso. tauto.
    + split; [|intros _; eexists; reflexivity]. intros _ [_ H].
      apply Qle_bool_iff in H. congruence.
  - split; [|intros _; eexists; reflexivity]. intros _ [H _].
    apply Bool.negb_false_iff in E1. apply Qle_bool_iff in E1.
    apply (Qle_not_lt _ _ E1). eapply Qlt_le_trans; [|exact H]. reflexivity.
Qed.

Lemma amount_error_iff (req : SimulateTradeRequest) :
  (exists m, In ("amount", m) (validation_errors req)) <->
  (exists m, validate_amount (req_amount req) = inl m).
Proof.
  unfold validation_errors. split.
  - intros [m' H]. rewrite !in_app_iff in H. destruct H as [H|[H|H]].
    + destruct (validate_amount (req_amount req)) as [m|a]; simpl in H.
      * destruct H as [H|[]]. injection H as ->. eauto.
      * contradiction.
    + destruct (validate_direction (req_direction req)); simpl in H;
        [destruct H as [H|[]]; discriminate H | contradiction].
    + destruct (validate_price (req_price req)); simpl in H;
        [destruct H as [H|[]]; discriminate H | contradiction].
  - intros [m Hm]. rewrite Hm. exists m. simpl. auto.
Qed.

Lemma direction_error_iff (req : SimulateTradeRequest) :
  (exists m, In ("direction", m) (validation_errors req)) <->
  direction_of_string (req_direction req) = None.
Proof.
  unfold validation_errors. split.
  - intros [m' H]. rewrite !in_app_iff in H. destruct H as [H|[H|H]].
    + destruct (validate_amount (req_amount req)); simpl in H;
        [destruct H as [H|[]]; discriminate H | contradiction].
    + unfold validate_direction in H.
      destruct (direction_of_string (req_direction req)); simpl in H;
        [contradiction | reflexivity].
    + destruct (validate_price (req_price req)); simpl in H;
        [destruct H as [H|[]]; discriminate H | contradiction].
  - intros Hd. unfold validate_direction. rewrite Hd.
    eexists. rewrite !in_app_iff. right. left. simpl. left. reflexivity.
Qed.

Lemma price_error_iff (req : SimulateTradeRequest) :
  (exists m, In ("price", m) (validation_errors req)) <->
  ~ ((0 <= req_price req)%Q /\ (req_price req <= 1)%Q).
Proof.
  unfold validation_errors. split.
  - intros [m' H]. rewrite !in_app_iff in H. destruct H as [H|[H|H]].
    + destruct (validate_amount (req_amount req)); simpl in H;
        [destruct H as [H|[]]; discriminate H | contradiction].
    + destruct (validate_direction (req_direction req)); simpl in H;
        [destruct H as [H|[]]; discriminate H | contradiction].
    + unfold validate_price in H. intros [H0 H1].
      apply Qle_bool_iff in H0. apply Qle_bool_iff in H1.
      rewrite H0, H1 in H. simpl in H. contradiction.
  - intros Hn. unfold validate_price.
    destruct (Qle_bool 0 (req_price req)) eqn:E0;
    destruct (Qle_bool (req_price req) 1) eqn:E1; simpl;
    try (eexists; rewrite !in_app_iff; right; right; left; reflexivity).
    exfalso. apply Hn. split; apply Qle_bool_iff; assumption.
Qed.

Lemma validation_errors_nil (req : SimulateTradeRequest) :
  validation_errors req = [] ->
  exists a d, validate_amount (req_amount req) = inr a
              /\ direction_of_string (req_direction req) = Some d.
Proof.
  unfold validation_errors, validate_direction.
  destruct (validate_amount (req_amount req)) as [m|a]; [discriminate|].
  destruct (direction_of_string (req_direction req)) as [d|]; [|discriminate].
  intros _. eauto.
Qed.

(** A portfolio of $100 with no trades, and a $60 YES order at 0.50. *)
Definition db_100 : Db := mkDb (Some 100%Q) [].

Definition request (amt : Q) (dir : string) (price : Q) : SimulateTradeRequest :=
  mkRequest "m1" "Will it rain?" amt dir price.

Definition two_trades_60 : TradeResponse * Db * (TradeResponse * Db) :=
  let r1 := simulate_trade db_100 (request 60 "YES" (1 # 2)) in
  (r1, simulate_trade (snd r1) (request 60 "YES" (1 # 2))).



(** An order of $100.004 against a balance of $100. *)
Definition db_c2 : Db := mkDb (Some 100%Q) [].
Definition req_c2 : SimulateTradeRequest := request (100004 # 1000) "YES" (1 # 2).


(** A $10 YES order at price 0. *)
Definition req_price_zero : SimulateTradeRequest := request 10 "YES" 0.

(** C9 (code defect): an order at price 0 passes validation (the schema
    bounds the price by ge=0, le=1) and creates an ACTIVE trade whose
    entry and current prices are 0. *)
Theorem simulate_trade_accepts_price_zero :
  validation_errors req_price_zero = [] /\
  exists t b,
    simulate_trade db_100 req_price_zero =
      (TradeOk t b, mkDb (Some b) [t])
    /\ entry_price t = Some 0%Q /\ current_price t = Some 0%Q
    /\ status t = ACTIVE.
Proof.
  split; [reflexivity|]. eexists; eexists. split; [reflexivity|].
  split; [reflexivity|]. split; reflexivity.
Qed.

(** The PnL of the spec's formula, for prices that are present and
    nonzero. *)
Definition pnl_formula (d : TradeDirection) (amt c e : Q) : Q :=
  match d with
  | YES => ((c - e) * amt / e)%Q
  | NO => ((e - c) * amt / e)%Q
  end.

(** The per-trade PnL read literally: the formula as soon as both prices
    are present (evaluated with Python's division), otherwise 0. *)
Definition claim_pnl (t : Trade) : result Q :=
  match current_price t, entry_price t with
  | Some c, Some e =>
      match direction t with
      | YES => py_div ((c - e) * amount t) e
      | NO => py_div ((e - c) * amount t) e
      end
  | _, _ => Ok 0%Q
  end.

(** The pnl the view reports for a trade: the formula when both prices
    are present and nonzero, 0 when a price is absent or 0. *)
Definition pnl_reported (t : Trade) (p : Q) : Prop :=
  (forall c e, current_price t = Some c -> entry_price t = Some e ->
     ~ (c == 0)%Q -> ~ (e == 0)%Q -> p = pnl_formula (direction t) (amount t) c e)
  /\ (current_price t = None \/ entry_price t = None
      \/ (exists c, current_price t = Some c /\ (c == 0)%Q)
      \/ (exists e, entry_price t = Some e /\ (e == 0)%Q) -> p = 0%Q).

Lemma Qeq_bool_false_of (q : Q) : ~ (q == 0)%Q -> Qeq_bool q 0 = false.
Proof. intros H. apply Bool.not_true_iff_false. rewrite Qeq_bool_iff. exact H. Qed.

Lemma trade_pnl_cases (t : Trade) (p : Q) : trade_pnl t = Ok p -> pnl_reported t p.
Proof.
  intros H. split.
  - intros c e Hc He Hc0 He0. unfold trade_pnl in H. rewrite Hc, He in H.
    simpl in H. rewrite (Qeq_bool_false_of c Hc0), (Qeq_bool_false_of e He0) in H.
    simpl in H. unfold pnl_formula, py_div in *.
    rewrite (Qeq_bool_false_of e He0) in H.
    destruct (direction t); injection H as <-; reflexivity.
  - intros Hz. unfold trade_pnl in H.
    destruct Hz as [Hc|[He|[[c [Hc Hc0]]|[e [He He0]]]]].
    + rewrite Hc in H. simpl in H. injection H as <-. reflexivity.
    + rewrite He in H. simpl truthy_price in H. rewrite Bool.andb_false_r in H.
      injection H as <-. reflexivity.
    + rewrite Hc in H. simpl truthy_price in H.
      assert (Qeq_bool c 0 = true) as E by (apply Qeq_bool_iff; exact Hc0).
      rewrite E in H. simpl in H. injection H as <-. reflexivity.
    + rewrite He in H. simpl truthy_price in H.
      assert (Qeq_bool e 0 = true) as E by (apply Qeq_bool_iff; exact He0).
      rewrite E in H. simpl negb in H. rewrite Bool.andb_false_r in H.
      injection H as <-. reflexivity.
Qed.

Lemma portfolio_loop_ok (ts : list Trade) (acc : Q) (r : list (Trade * Q) * Q) :
  portfolio_loop ts acc = Ok r ->
  map fst (fst r) = ts
  /\ Forall (fun tp => trade_pnl (fst tp) = Ok (snd tp)) (fst r)
  /\ snd r = fold_left Qplus (map snd (fst r)) acc.
Proof.
  revert acc r. induction ts as [|t rest IH]; intros acc r H; simpl in H.
  - injection H as <-. simpl. auto.
  - destruct (trade_pnl t) as [q|e] eqn:Et; simpl in H; [|discriminate].
    unfold trade_info in H. destruct (entry_price t); simpl in H; [|discriminate].
    destruct (portfolio_loop rest (acc + q)%Q) as [r'|e] eqn:Er; simpl in H;
      [|discriminate].
    injection H as <-. destruct (IH _ _ Er) as [H1 [H2 H3]]. simpl.
    rewrite H1. split; [reflexivity|]. split; [constructor; assumption|].
    exact H3.
Qed.

Lemma trade_pnl_never_div_zero (t : Trade) : exists p, trade_pnl t = Ok p.
Proof.
  unfold trade_pnl.
  destruct (truthy_price (current_price t)) eqn:Ec; simpl; [|eauto].
  destruct (entry_price t) as [e|] eqn:Ee; simpl; [|eauto].
  destruct (Qeq_bool e 0) eqn:E0; simpl; [eauto|].
  unfold py_div. rewrite E0. destruct (direction t); eauto.
Qed.

Lemma portfolio_loop_no_div_zero (ts : list Trade) (acc : Q) :
  portfolio_loop ts acc <> Raise ZeroDivisionError.
Proof.
  revert acc. induction ts as [|t rest IH]; intros acc; simpl; [discriminate|].
  destruct (trade_pnl_never_div_zero t) as [q Hq]. rewrite Hq. simpl.
  unfold trade_info. destruct (entry_price t); simpl; [|discriminate].
  specialize (IH (acc + q)%Q).
  destruct (portfolio_loop rest (acc + q)%Q); simpl; [discriminate|exact IH].
Qed.

(** A YES trade of $100 entered at 0.40 and now at 0.60. *)
Definition trade_40_60 : Trade :=
  mkTrade 1 "m1" "Will it rain?" YES 100 (Some (2 # 5)) (Some (3 # 5)) ACTIVE.

Definition db_c7 : Db := mkDb (Some 100%Q) [trade_40_60].

(** The portfolio view lists exactly the rows of its query, in the order
    the database returns them; each reported pnl is the formula when both
    prices are present and nonzero and 0 when a price is absent or 0;
    [total_pnl] is the sum of the reported pnl.  A YES trade of 100 from
    0.40 to 0.60 has pnl 50. *)
Theorem get_portfolio_view scan (db : Db) (b total : Q) (infos : list (Trade * Q)) :
  get_portfolio scan db = Ok (PortfolioInfo b infos total) ->
  portfolio db = Some b
  /\ map fst infos = scan (filter is_active (trades db))
  /\ Forall (fun tp => pnl_reported (fst tp) (snd tp)) infos
  /\ total = fold_left Qplus (map snd infos) 0%Q
  /\ (exists p, trade_pnl trade_40_60 = Ok p /\ (p == 50)%Q).
Proof.
  intros H. unfold get_portfolio in H.
  destruct (portfolio db) as [b'|]; [|discriminate].
  destruct (portfolio_loop (scan (filter is_active (trades db))) 0%Q) as [r|e] eqn:E;
    simpl in H; [|discriminate].
  injection H as <- <- <-. destruct (portfolio_loop_ok _ _ _ E) as [H1 [H2 H3]].
  split; [reflexivity|]. split; [exact H1|]. split.
  - eapply Forall_impl; [|exact H2]. intros tp Htp. apply trade_pnl_cases. exact Htp.
  - split; [exact H3|]. eexists. split; reflexivity.
Qed.

Lemma get_portfolio_view_witness :
  get_portfolio (fun l => l) db_c7
    = Ok (PortfolioInfo 100 [(trade_40_60, 2500 # 50)] (2500 # 50))
  /\ (2500 # 50 = fold_left Qplus (map snd [(trade_40_60, 2500 # 50)]) 0%Q).
Proof.
  split; [reflexivity|].
  exact (proj1 (proj2 (proj2 (proj2
    (get_portfolio_view (fun l => l) db_c7 100 (2500 # 50) [(trade_40_60, 2500 # 50)]
       eq_refl))))).
Defined.

(** The database after a $10 YES order at price 0. *)
Definition db_price_zero : Db := snd (simulate_trade db_100 req_price_zero).

(** A YES trade of $100 entered at 0.40 whose current price is 0. *)
Definition trade_40_0 : Trade :=
  mkTrade 1 "m1" "Will it rain?" YES 100 (Some (2 # 5)) (Some 0%Q) ACTIVE.

(** C7 (code defect): [if t.current_price and t.entry_price] tests
    truthiness, so a known price of 0 is handled as an absent one.  The
    order placed at price 0 (accepted, see C9) is listed with pnl 0,
    where the stated formula divides by zero; and a YES trade of 100
    entered at 0.40 whose current price is 0 is listed with pnl 0, where
    the formula gives -100.  With a single active row the order of the
    query does not matter. *)
Lemma get_portfolio_zero_entry_counterexample :
  (exists b t,
     get_portfolio (fun l => l) db_price_zero = Ok (PortfolioInfo b [(t, 0%Q)] 0%Q)
     /\ entry_price t = Some 0%Q /\ current_price t = Some 0%Q
     /\ claim_pnl t = Raise ZeroDivisionError)
  /\ get_portfolio (fun l => l) (mkDb (Some 100%Q) [trade_40_0])
     = Ok (PortfolioInfo 100 [(trade_40_0, 0%Q)] 0%Q)
  /\ (exists p, claim_pnl trade_40_0 = Ok p /\ (p == -100)%Q).
Proof.
  split; [|split; [reflexivity|eexists; split; reflexivity]].
  eexists; eexists. split; [reflexivity|].
  split; [reflexivity|]. split; reflexivity.
Qed.

(** C10: a trade whose current or entry price is absent or zero has pnl 0,
    and computing the portfolio view never raises ZeroDivisionError, for
    every database. *)
Theorem get_portfolio_no_zero_division :
  (forall t : Trade,
     current_price t = None \/ entry_price t = None
     \/ (exists c, current_price t = Some c /\ (c == 0)%Q)
     \/ (exists e, entry_price t = Some e /\ (e == 0)%Q) ->
     trade_pnl t = Ok 0%Q)
  /\ (forall scan (db : Db), get_portfolio scan db <> Raise ZeroDivisionError).
Proof.
  split.
  - intros t Hz. unfold trade_pnl.
    destruct Hz as [H|[H|[[c [H H0]]|[e [H H0]]]]]; rewrite H; simpl truthy_price;
      try (rewrite Bool.andb_false_r; reflexivity); try reflexivity.
    + assert (Qeq_bool c 0 = true) as -> by (apply Qeq_bool_iff; exact H0).
      reflexivity.
    + assert (Qeq_bool e 0 = true) as -> by (apply Qeq_bool_iff; exact H0).
      simpl negb. rewrite Bool.andb_false_r. reflexivity.
  - intros scan db. unfold get_portfolio. destruct (portfolio db); [|discriminate].
    pose proof (portfolio_loop_no_div_zero (scan (filter is_active (trades db))) 0%Q) as H.
    destruct (portfolio_loop _ _); simpl; [discriminate|].
    intros Heq. injection Heq as ->. apply H. reflexivity.
Qed.

End LedgerFacts.

(* ================================================================== *)
(** ** Theorems: upstream fetching *)

Module ServiceFacts.
Import Py PyExtra Normalizer Service.
Local Open Scope string_scope.

Lemma bind_raise {A B} (m : result A) (f : A -> result B) (e : pyexc) :
  bind m f = Raise e -> m = Raise e \/ exists a, m = Ok a /\ f a = Raise e.
Proof.
  destruct m as [a|e']; simpl; [right; eauto|].
  intros H. left. injection H as ->. reflexivity.
Qed.

Lemma bind_ok {A B} (m : result A) (f : A -> result B) (b : B) :
  bind m f = Ok b -> exists a, m = Ok a /\ f a = Ok b.
Proof. destruct m as [a|e']; simpl; [eauto | discriminate]. Qed.

Lemma float_of_raise (v : pyval) (e : pyexc) :
  float_of v = Raise e -> e = ValueError \/ e = TypeError \/ e = OverflowError.
Proof.
  destruct v; simpl; try discriminate; try (intros H; injection H as <-; auto).
  - destruct (double_overflow <=? Z.abs z)%Z; [|discriminate].
    intros H; injection H as <-; auto.
  - destruct (parse_float_str s); [discriminate|]. intros H; injection H as <-; auto.
Qed.

Lemma py_len_raise (v : pyval) (e : pyexc) : py_len v = Raise e -> e = TypeError.
Proof. destruct v; simpl; try discriminate; intros H; injection H as <-; auto. Qed.

Lemma py_index_raise (v : pyval) (i : nat) (e : pyexc) :
  py_index v i = Raise e -> e = IndexError \/ e = KeyError \/ e = TypeError.
Proof.
  destruct v; simpl; try (intros H; injection H as <-; auto).
  - destruct (String.get i s); [discriminate|]. intros H; injection H as <-; auto.
  - destruct (nth_error l i); [discriminate|]. intros H; injection H as <-; auto.
Qed.

Lemma parse_outcome_prices_body_raise json_loads (raw : pyval) (e : pyexc) :
  parse_outcome_prices_body json_loads raw = Raise e ->
  caught_by_parse_outcome_prices e = true \/ e = TypeError \/ e = KeyError
  \/ e = OverflowError \/ (exists s, raw = PStr s /\ json_loads s = Raise e).
Proof.
  unfold parse_outcome_prices_body. intros H.
  apply bind_raise in H. destruct H as [H|[ops [_ H]]].
  { destruct raw; try discriminate. right. right. right. right. eauto. }
  destruct (truthy ops); [|discriminate].
  apply bind_raise in H. destruct H as [H|[n [_ H]]].
  { apply py_len_raise in H. subst. auto. }
  destruct (1 <=? n)%nat; [|discriminate].
  apply bind_raise in H. destruct H as [H|[p0 [_ H]]].
  { apply py_index_raise in H. destruct H as [ -> | [ -> | -> ] ]; auto. }
  apply bind_raise in H. destruct H as [H|[yes [_ H]]].
  { apply float_of_raise in H. destruct H as [ -> | [ -> | -> ] ]; auto. }
  apply bind_raise in H. destruct H as [H|[no [_ H]]]; [|discriminate].
  destruct (1 <? n)%nat; [|discriminate].
  apply bind_raise in H. destruct H as [H|[p1 [_ H]]].
  { apply py_index_raise in H. destruct H as [ -> | [ -> | -> ] ]; auto. }
  apply float_of_raise in H. destruct H as [ -> | [ -> | -> ] ]; auto.
Qed.

(** The exceptions that escape [parse_outcome_prices]: every [ValueError],
    [IndexError] and [JSONDecodeError] falls back to [(0.5, 0.5)], so what
    escapes is a [TypeError] (a [null] or list item, or an argument such
    as an int), a [KeyError] (a JSON object, indexed by [0]), an
    [OverflowError] (an integer item too large for a double), or an
    exception of [json.loads] other than these, such as [RecursionError]
    on a too deeply nested JSON string. *)
Theorem parse_outcome_prices_escapes json_loads (raw : pyval) (e : pyexc) :
  parse_outcome_prices json_loads raw = Raise e ->
  caught_by_parse_outcome_prices e = false
  /\ (e = TypeError \/ e = KeyError \/ e = OverflowError
      \/ (exists s, raw = PStr s /\ json_loads s = Raise e)).
Proof.
  unfold parse_outcome_prices.
  destruct (parse_outcome_prices_body json_loads raw) as [[p|]|e'] eqn:E;
    try discriminate.
  destruct (caught_by_parse_outcome_prices e') eqn:C; [discriminate|].
  intros H. injection H as <-. split; [exact C|].
  destruct (parse_outcome_prices_body_raise _ _ _ E) as [H|H]; [congruence|exact H].
Qed.

Lemma parse_outcome_prices_escapes_witness :
  parse_outcome_prices (fun _ => Raise JSONDecodeError)
    (PList [PInt (10 ^ 309); PStr "0.5"]) = Raise OverflowError
  /\ parse_outcome_prices (fun _ => Raise RecursionError) (PStr "[[[[") = Raise RecursionError
  /\ parse_outcome_prices (fun _ => Raise JSONDecodeError) (PStr "[[[[") = Ok (half, half)
  /\ parse_outcome_prices (fun _ => Raise JSONDecodeError) (PDict [("a", PInt 1)]) = Raise KeyError
  /\ (caught_by_parse_outcome_prices OverflowError = false
      /\ (OverflowError = TypeError \/ OverflowError = KeyError \/ OverflowError = OverflowError
          \/ (exists s, PList [PInt (10 ^ 309); PStr "0.5"] = PStr s
                        /\ (fun _ : string => @Raise pyval JSONDecodeError) s = Raise OverflowError))).
Proof.
  split; [vm_compute; reflexivity|]. split; [reflexivity|]. split; [reflexivity|].
  split; [reflexivity|].
  exact (parse_outcome_prices_escapes (fun _ => Raise JSONDecodeError)
           (PList [PInt (10 ^ 309); PStr "0.5"]) OverflowError ltac:(vm_compute; reflexivity)).
Defined.

(** [parse_outcome_prices] returns the listed prices as they are: the
    first two items of a list (or of a JSON string encoding a list), and
    [1 - yes] for a one-item list, with no clamping and no check that the
    two prices sum to 1. *)
Theorem parse_outcome_prices_unnormalized json_loads (a b : pyval) (rest : list pyval)
    (fa fb : pyfloat) :
  float_of a = Ok fa -> float_of b = Ok fb ->
  parse_outcome_prices json_loads (PList (a :: b :: rest)) = Ok (fa, fb)
  /\ parse_outcome_prices json_loads (PList [a]) = Ok (fa, pf_sub (Fin 1) fa)
  /\ (forall s, json_loads s = Ok (PList (a :: b :: rest)) ->
        parse_outcome_prices json_loads (PStr s) = Ok (fa, fb)).
Proof.
  intros Ha Hb. unfold parse_outcome_prices, parse_outcome_prices_body.
  split; [|split].
  - simpl. rewrite Ha. simpl. rewrite Hb. reflexivity.
  - simpl. rewrite Ha. reflexivity.
  - intros s Hs. simpl. rewrite Hs. simpl. rewrite Ha. simpl. rewrite Hb. reflexivity.
Qed.

Lemma parse_outcome_prices_unnormalized_witness :
  float_of (PStr "0.7") = Ok (Fin (7 # 10)) /\
  parse_outcome_prices (fun _ => Raise JSONDecodeError) (PList [PStr "0.7"; PStr "0.7"])
    = Ok (Fin (7 # 10), Fin (7 # 10)).
Proof.
  split; [reflexivity|].
  exact (proj1 (parse_outcome_prices_unnormalized (fun _ => Raise JSONDecodeError) (PStr "0.7") (PStr "0.7")
                  [] (Fin (7 # 10)) (Fin (7 # 10)) eq_refl eq_refl)).
Defined.

Lemma collect_event_markets_ok json_loads days_until_of (ed : dict) (ms : list pyval)
    (r : list MarketSnapshot) :
  collect_event_markets json_loads days_until_of ed ms = Ok r ->
  forall md, In (PDict md) ms -> truthy (get_default md "active" (PBool true)) = true ->
  exists s, _parse_market json_loads days_until_of md ed = Ok s.
Proof.
  revert r. induction ms as [|m rest IH]; intros r H md Hin Hact; [destruct Hin|].
  simpl in H. apply bind_ok in H. destruct H as [md0 [Hd H]].
  destruct Hin as [Heq|Hin].
  - subst m. simpl in Hd. injection Hd as <-. rewrite Hact in H.
    apply bind_ok in H. destruct H as [s [Hs _]]. eauto.
  - destruct (truthy (get_default md0 "active" (PBool true))).
    + apply bind_ok in H. destruct H as [s [_ H]].
      apply bind_ok in H. destruct H as [r' [Hr _]]. eapply IH; eauto.
    + eapply IH; eauto.
Qed.

Lemma collect_events_ok json_loads days_until_of (evs : list pyval) (r : list MarketSnapshot) :
  collect_events json_loads days_until_of evs = Ok r ->
  forall ed ms md, In (PDict ed) evs ->
  py_iter (get_default ed "markets" (PList [])) = Ok ms ->
  In (PDict md) ms -> truthy (get_default md "active" (PBool true)) = true ->
  exists s, _parse_market json_loads days_until_of md ed = Ok s.
Proof.
  revert r. induction evs as [|e rest IH]; intros r H ed ms md Hin Hms Hm Hact;
    [destruct Hin|].
  simpl in H. apply bind_ok in H. destruct H as [ed0 [Hd H]].
  apply bind_ok in H. destruct H as [ms0 [Hms0 H]].
  apply bind_ok in H. destruct H as [here [Hhere H]].
  apply bind_ok in H. destruct H as [r' [Hr _]].
  destruct Hin as [Heq|Hin].
  - subst e. simpl in Hd. injection Hd as <-. rewrite Hms in Hms0.
    injection Hms0 as <-. eapply collect_event_markets_ok; eauto.
  - eapply IH; eauto.
Qed.

(** One active market that fails to normalize makes the whole listing
    fail: [fetch_active_markets] raises and the [/markets] block yields no
    data.  A request admitted by the rate limiter that finds no fresh
    cache entry then starts the fetch, leaves the cache (data and
    timestamp) as it was, and answers with the stale cached data if there
    is any, with a 500 otherwise. *)
Theorem listing_all_or_nothing json_loads days_until_of (evs : list pyval)
    (ed md : dict) (ms : list pyval) (err : pyexc) :
  In (PDict ed) evs ->
  py_iter (get_default ed "markets" (PList [])) = Ok ms ->
  In (PDict md) ms ->
  truthy (get_default md "active" (PBool true)) = true ->
  _parse_market json_loads days_until_of md ed = Raise err ->
  (exists e, markets_of_events json_loads days_until_of (PList evs) = Raise e)
  /\ markets_listing json_loads days_until_of (Some (PList evs)) = None
  /\ (forall (g : Gate.GateState (list MarketInfo)) settings client_ip clock now,
        fst (Gate.check_rate_limit (Gate.rate_store g) client_ip "markets"
               (Gate.rate_limit_markets settings) 60 clock) = true ->
        Gate.fresh_entry g settings now = None ->
        let '(resp, started, g') :=
          Gate.get_markets g settings client_ip clock now
            (markets_listing json_loads days_until_of (Some (PList evs))) in
        started = true
        /\ Gate.cache_data g' = Gate.cache_data g
        /\ Gate.cache_timestamp g' = Gate.cache_timestamp g
        /\ resp = match Gate.cache_data g with
                  | Some d => Gate.Markets d
                  | None => Gate.HttpError 500
                  end).
Proof.
  intros Hin Hms Hm Hact Herr.
  assert (Hraise : exists e, markets_of_events json_loads days_until_of (PList evs) = Raise e).
  { destruct (markets_of_events json_loads days_until_of (PList evs)) as [r|e] eqn:E;
      [|eauto].
    unfold markets_of_events in E. simpl in E.
    destruct (collect_events_ok _ _ _ _ E ed ms md Hin Hms Hm Hact) as [s Hs].
    congruence. }
  assert (Hnone : markets_listing json_loads days_until_of (Some (PList evs)) = None).
  { destruct Hraise as [e He]. unfold markets_listing. rewrite He. reflexivity. }
  split; [exact Hraise|]. split; [exact Hnone|].
  intros g settings client_ip clock now Hok Hfresh.
  rewrite Hnone. unfold Gate.get_markets.
  destruct (Gate.check_rate_limit (Gate.rate_store g) client_ip "markets"
              (Gate.rate_limit_markets settings) 60 clock) as [allowed rs].
  simpl in Hok. subst allowed. simpl. rewrite Hfresh.
  destruct (Gate.cache_data g); simpl; auto.
Qed.

(** An event carrying one market whose last traded price is "abc". *)
Definition event_bad_market : dict :=
  [("markets", PList [PDict [("lastTradePrice", PStr "abc")]])].

Lemma listing_all_or_nothing_witness :
  markets_listing (fun _ => Raise JSONDecodeError) (fun _ => None)
    (Some (PList [PDict [("markets", PList [])]; PDict event_bad_market])) = None.
Proof.
  refine (proj1 (proj2 (listing_all_or_nothing (fun _ => Raise JSONDecodeError) (fun _ => None)
    [PDict [("markets", PList [])]; PDict event_bad_market] event_bad_market
    [("lastTradePrice", PStr "abc")] [PDict [("lastTradePrice", PStr "abc")]]
    ValueError _ _ _ _ _))).
  - right. left. reflexivity.
  - reflexivity.
  - left. reflexivity.
  - reflexivity.
  - reflexivity.
Defined.

Lemma get_default_found (d : dict) (k : string) (v dflt dflt' : pyval) :
  get_default d k dflt = v -> v <> dflt -> get_default d k dflt' = v.
Proof.
  induction d as [|[k' v'] d IH]; simpl; [intros H1 H2; congruence|].
  destruct (String.eqb k k'); auto.
Qed.

Lemma quote_of_id json_loads (md : dict) (q : MarketQuote) :
  quote_of json_loads md = Ok q ->
  quote_id q = get_default md "conditionId" (PStr "").
Proof.
  unfold quote_of. intros H. apply bind_ok in H. destruct H as [p [_ H]].
  injection H as <-. reflexivity.
Qed.

Lemma find_market_id json_loads (mid : string) (l : list pyval) (q : MarketQuote) :
  find_market json_loads mid l = Ok (Some q) -> quote_id q = PStr mid.
Proof.
  induction l as [|m rest IH]; simpl; [discriminate|].
  intros H. apply bind_ok in H. destruct H as [md [_ H]].
  destruct (eq_str (get md "conditionId") mid) eqn:E; [|exact (IH H)].
  apply bind_ok in H. destruct H as [q' [Hq H]]. injection H as <-.
  rewrite (quote_of_id _ _ _ Hq).
  unfold eq_str, get in E.
  destruct (get_default md "conditionId" PNone) eqn:G; try discriminate.
  apply String.eqb_eq in E. subst s.
  apply (get_default_found _ _ _ PNone); [exact G | discriminate].
Qed.

(** [get_market_by_id] answers, from a list payload, only a market whose
    [conditionId] is the requested id; a dict payload is returned without
    that check, so its id may differ from the requested one. *)
Theorem get_market_by_id_checks_list_ids json_loads (mid : string)
    (r1 r2 : HttpResponse) (q : MarketQuote) :
  get_market_by_id json_loads mid r1 r2 = Ok (Some q) ->
  (forall l, json_body (if (status_code r1 =? 200)%Z then r1 else r2) = Ok (PList l) ->
     quote_id q = PStr mid)
  /\ (exists q', get_market_by_id (fun _ => Raise JSONDecodeError) "0xabc"
                   (mkResponse 200 (Ok (PDict [("conditionId", PStr "0xdef")]))) r2
                 = Ok (Some q') /\ quote_id q' = PStr "0xdef").
Proof.
  intros H. split.
  - intros l Hl. unfold get_market_by_id in H.
    destruct ((status_code (if (status_code r1 =? 200)%Z then r1 else r2) =? 200)%Z);
      [|discriminate].
    unfold response_json in H. rewrite Hl in H. simpl in H.
    exact (find_market_id _ _ _ _ H).
  - eexists. split; reflexivity.
Qed.

Lemma get_market_by_id_checks_list_ids_witness :
  get_market_by_id (fun _ => Raise JSONDecodeError) "0xabc"
    (mkResponse 200 (Ok (PList [PDict [("conditionId", PStr "0xdef")];
                                  PDict [("conditionId", PStr "0xabc")]])))
    (mkResponse 404 (Raise JSONDecodeError))
  = Ok (Some {| quote_id := PStr "0xabc"; quote_question := PStr "";
                quote_yes := half; quote_no := half |})
  /\ quote_id {| quote_id := PStr "0xabc"; quote_question := PStr "";
                 quote_yes := half; quote_no := half |} = PStr "0xabc".
Proof.
  split; [reflexivity|].
  refine (proj1 (get_market_by_id_checks_list_ids (fun _ => Raise JSONDecodeError) "0xabc"
    (mkResponse 200 (Ok (PList [PDict [("conditionId", PStr "0xdef")];
                                  PDict [("conditionId", PStr "0xabc")]])))
    (mkResponse 404 (Raise JSONDecodeError)) _ eq_refl) _ eq_refl).
Defined.

(** The invariant of the dict built by [get_markets_batch]: no key twice,
    each key one of the requested ids and the [id] of its own entry. *)
Definition batch_ok (ids : list string) (mp : list (string * MarketQuote)) : Prop :=
  NoDup (map fst mp) /\
  Forall (fun kv => In (fst kv) ids /\ quote_id (snd kv) = PStr (fst kv)) mp.

Lemma has_key_in {A} (d : list (string * A)) (k : string) :
  has_key d k = true <-> In k (map fst d).
Proof.
  unfold has_key. rewrite existsb_exists. split.
  - intros [[k' v] [Hin E]]. apply String.eqb_eq in E. simpl in E. subst k'.
    apply (in_map fst _ _ Hin).
  - intros Hin. apply in_map_iff in Hin. destruct Hin as [[k' v] [E Hin]].
    simpl in E. subst k'. exists (k, v). split; [exact Hin|apply String.eqb_refl].
Qed.

Lemma dict_set_keys {A} (d : list (string * A)) (k : string) (v : A) :
  map fst (dict_set d k v) = if has_key d k then map fst d else (map fst d ++ [k])%list.
Proof.
  induction d as [|[k' v'] d IH]; [reflexivity|].
  unfold has_key in *. simpl. rewrite (String.eqb_sym k' k).
  destruct (String.eqb k k'); simpl; [reflexivity|].
  rewrite IH. destruct (existsb (fun kv => String.eqb (fst kv) k) d); reflexivity.
Qed.

Lemma NoDup_snoc {A} (l : list A) (x : A) :
  NoDup l -> ~ In x l -> NoDup (l ++ [x])%list.
Proof.
  induction l as [|y l IH]; simpl; intros Hn Hx.
  - constructor; [intros []|constructor].
  - inversion Hn as [|? ? Hy Hl]; subst. constructor.
    + rewrite in_app_iff. intros [H|[H|[]]]; [contradiction|]. subst. apply Hx. left. reflexivity.
    + apply IH; auto.
Qed.

Lemma dict_set_nodup {A} (d : list (string * A)) (k : string) (v : A) :
  NoDup (map fst d) -> NoDup (map fst (dict_set d k v)).
Proof.
  intros H. rewrite dict_set_keys. destruct (has_key d k) eqn:E; [exact H|].
  apply NoDup_snoc; [exact H|]. intros Hin. apply has_key_in in Hin. congruence.
Qed.

Lemma dict_set_forall {A} (P : string * A -> Prop) (d : list (string * A)) (k : string) (v : A) :
  Forall P d -> P (k, v) -> Forall P (dict_set d k v).
Proof.
  induction d as [|[k' v'] d IH]; simpl; intros Hd Hk; [constructor; auto|].
  inversion Hd; subst. destruct (String.eqb k k') eqn:E.
  - apply String.eqb_eq in E. subst k'. constructor; auto.
  - constructor; auto.
Qed.

Lemma batch_scan_markets_inv json_loads (ids : list string) (ms : list pyval)
    (U : list string) (acc r : list (string * MarketQuote)) :
  incl ids U ->
  batch_scan_markets json_loads ids ms acc = Ok r -> batch_ok U acc -> batch_ok U r.
Proof.
  intros HU. revert acc. induction ms as [|m rest IH]; simpl; intros acc H Hacc.
  - injection H as <-. exact Hacc.
  - apply bind_ok in H. destruct H as [md [_ H]].
    apply bind_ok in H. destruct H as [found [Hf H]].
    destruct found; [|eapply IH; eauto].
    destruct (get_default md "conditionId" (PStr "")) eqn:G;
      try (eapply IH; eauto; fail).
    apply bind_ok in H. destruct H as [q [Hq H]].
    apply (IH _ H). destruct Hacc as [Hn Hf'].
    split; [apply dict_set_nodup; exact Hn|].
    apply dict_set_forall; [exact Hf'|]. simpl. split.
    + simpl in Hf. injection Hf as Hf. apply existsb_exists in Hf.
      destruct Hf as [x [Hx E]]. apply String.eqb_eq in E. subst x. exact (HU _ Hx).
    + rewrite (quote_of_id _ _ _ Hq). exact G.
Qed.

Lemma batch_scan_inv json_loads (ids : list string) (evs : list pyval)
    (U : list string) (acc r : list (string * MarketQuote)) :
  incl ids U ->
  batch_scan json_loads ids evs acc = Ok r -> batch_ok U acc -> batch_ok U r.
Proof.
  intros HU. revert acc. induction evs as [|e rest IH]; simpl; intros acc H Hacc.
  - injection H as <-. exact Hacc.
  - apply bind_ok in H. destruct H as [ed [_ H]].
    apply bind_ok in H. destruct H as [ms [_ H]].
    apply bind_ok in H. destruct H as [acc' [Ha H]].
    exact (IH _ H (batch_scan_markets_inv _ _ _ _ _ _ HU Ha Hacc)).
Qed.


(** [get_markets_batch] returns a dict whose keys are distinct requested
    ids, each mapped to the market with that [conditionId]; it returns an
    empty dict for no ids and when the first events request is not a
    200, whatever the second request would answer. *)
Theorem get_markets_batch_keys json_loads (ids : list string) (r1 r2 : HttpResponse) :
  (forall mp, get_markets_batch json_loads ids r1 r2 = Ok mp ->
     NoDup (map fst mp) /\
     Forall (fun kv => In (fst kv) ids /\ quote_id (snd kv) = PStr (fst kv)) mp)
  /\ get_markets_batch json_loads [] r1 r2 = Ok []
  /\ ((status_code r1 <> 200)%Z -> get_markets_batch json_loads ids r1 r2 = Ok []).
Proof.
  split; [|split; [reflexivity|]].
  - intros mp H. change (batch_ok ids mp).
    unfold get_markets_batch in H. destruct ids as [|i ids'].
    + injection H as <-. split; constructor.
    + destruct (negb (status_code r1 =? 200)%Z).
      { injection H as <-. split; constructor. }
      apply bind_ok in H. destruct H as [events [_ H]].
      apply bind_ok in H. destruct H as [n [_ H]].
      apply bind_ok in H. destruct H as [evs [_ H]].
      apply bind_ok in H. destruct H as [mm [Hm H]].
      assert (Hmm : batch_ok (i :: ids') mm).
      { apply (batch_scan_inv _ _ _ _ _ _ (incl_refl _) Hm). split; constructor. }
      destruct (filter (fun x => negb (has_key mm x)) (i :: ids')) as [|j js] eqn:Fm.
      { injection H as <-. exact Hmm. }
      destruct (status_code r2 =? 200)%Z; [|injection H as <-; exact Hmm].
      apply bind_ok in H. destruct H as [events2 [_ H]].
      apply bind_ok in H. destruct H as [evs2 [_ H]].
      refine (batch_scan_inv _ _ _ _ _ _ _ H Hmm).
      rewrite <- Fm. intros x Hx. apply filter_In in Hx. tauto.
  - intros Hs. unfold get_markets_batch. destruct ids; [reflexivity|].
    apply Z.eqb_neq in Hs. rewrite Hs. reflexivity.
Qed.

End ServiceFacts.

(* ================================================================== *)
(** * Theorems: client identification and the rate-limiter keys *)

Module ClientFacts.
Import Py Client Gate.
Local Open Scope string_scope.

Lemma list_ascii_of_string_app (s1 s2 : string) :
  list_ascii_of_string (s1 ++ s2) = (list_ascii_of_string s1 ++ list_ascii_of_string s2)%list.
Proof. induction s1 as [|c s1 IH]; simpl; [reflexivity|]. rewrite IH. reflexivity. Qed.

Lemma length_list_ascii_of_string (s : string) :
  List.length (list_ascii_of_string s) = String.length s.
Proof. induction s as [|c s IH]; simpl; [reflexivity|]. rewrite IH. reflexivity. Qed.

Lemma list_ascii_of_string_inj (s1 s2 : string) :
  list_ascii_of_string s1 = list_ascii_of_string s2 -> s1 = s2.
Proof.
  intros H. rewrite <- (string_of_list_ascii_of_string s1), <- (string_of_list_ascii_of_string s2).
  rewrite H. reflexivity.
Qed.

Lemma app_split_len {A} (l1 l2 r1 r2 : list A) :
  List.length l1 = List.length l2 -> (l1 ++ r1 = l2 ++ r2)%list -> l1 = l2 /\ r1 = r2.
Proof.
  revert l2. induction l1 as [|x l1 IH]; intros [|y l2] Hl H; simpl in *;
    try discriminate; [auto|].
  injection H as -> H. injection Hl as Hl. destruct (IH l2 Hl H) as [-> ->]. auto.
Qed.

Lemma before_comma_id (l : list ascii) :
  ~ In ","%char l -> before_comma l = l.
Proof.
  induction l as [|c l IH]; simpl; intros H; [reflexivity|].
  destruct (Ascii.eqb c ","%char) eqn:E.
  - apply Ascii.eqb_eq in E. subst c. exfalso. apply H. left. reflexivity.
  - rewrite IH; [reflexivity|]. intros Hc. apply H. right. exact Hc.
Qed.

Lemma before_comma_app (l r : list ascii) :
  ~ In ","%char l -> before_comma (l ++ ","%char :: r)%list = l.
Proof.
  induction l as [|c l IH]; simpl; intros H; [reflexivity|].
  destruct (Ascii.eqb c ","%char) eqn:E.
  - apply Ascii.eqb_eq in E. subst c. exfalso. apply H. left. reflexivity.
  - rewrite IH; [reflexivity|]. intros Hc. apply H. right. exact Hc.
Qed.

Lemma drop_header_spaces_id (l : list ascii) :
  Forall (fun c => is_header_space c = false) l -> drop_header_spaces l = l.
Proof. intros H. destruct H as [|c l Hc _]; simpl; [reflexivity|]. rewrite Hc. reflexivity. Qed.

Lemma strip_header_id (l : list ascii) :
  Forall (fun c => is_header_space c = false) l -> strip_header l = l.
Proof.
  intros H. unfold strip_header. rewrite (drop_header_spaces_id l H).
  rewrite drop_header_spaces_id; [apply rev_involutive|]. apply Forall_rev. exact H.
Qed.

(** [get_client_ip] takes the first comma-separated item of the
    [X-Forwarded-For] header as the client address, whatever the peer
    address: a client that sends a header value never used before lands
    in an empty rate-limit bucket and is admitted. *)
Theorem get_client_ip_trusts_header (s rest : string) (client_host : option string)
    (st : store) (endpoint : string) (max_requests window_seconds : Z) (now : Q) :
  s <> "" ->
  ~ In ","%char (list_ascii_of_string s) ->
  Forall (fun c => is_header_space c = false) (list_ascii_of_string s) ->
  get_client_ip (Some s) client_host = s
  /\ get_client_ip (Some (s ++ "," ++ rest)) client_host = s
  /\ (st (rate_key s endpoint) = [] -> 1 <= max_requests ->
      fst (check_rate_limit st (get_client_ip (Some (s ++ "," ++ rest)) client_host)
             endpoint max_requests window_seconds now) = true).
Proof.
  intros Hne Hc Hsp.
  assert (E1 : get_client_ip (Some s) client_host = s).
  { unfold get_client_ip. destruct s as [|c s']; [congruence|]. simpl negb. cbv iota.
    rewrite before_comma_id by exact Hc. rewrite strip_header_id by exact Hsp.
    apply string_of_list_ascii_of_string. }
  assert (E2 : get_client_ip (Some (s ++ "," ++ rest)) client_host = s).
  { unfold get_client_ip. destruct s as [|c s']; [congruence|]. simpl negb. cbv iota.
    rewrite list_ascii_of_string_app. simpl list_ascii_of_string at 2.
    rewrite before_comma_app by exact Hc. rewrite strip_header_id by exact Hsp.
    apply string_of_list_ascii_of_string. }
  split; [exact E1|]. split; [exact E2|].
  intros Hst Hmax. rewrite E2. unfold check_rate_limit. rewrite Hst. simpl.
  destruct (max_requests <=? 0)%Z eqn:E; [apply Z.leb_le in E; lia|reflexivity].
Qed.

Lemma get_client_ip_trusts_header_witness :
  get_client_ip (Some "203.0.113.7, 10.0.0.1") (Some "10.0.0.1") = "203.0.113.7".
Proof.
  refine (proj1 (proj2 (get_client_ip_trusts_header "203.0.113.7" " 10.0.0.1"
    (Some "10.0.0.1") empty_store "markets" 60 60 0 _ _ _))).
  - discriminate.
  - intros H. simpl in H. repeat destruct H as [H|H]; try discriminate; exact H.
  - repeat constructor.
Defined.

Lemma rate_key_distinct (ip1 ip2 ep1 ep2 : string) :
  String.length ep1 = String.length ep2 -> (ip1 <> ip2 \/ ep1 <> ep2) ->
  rate_key ip1 ep1 <> rate_key ip2 ep2.
Proof.
  intros Hl Hd Heq. unfold rate_key in Heq.
  apply (f_equal list_ascii_of_string) in Heq.
  rewrite !list_ascii_of_string_app in Heq.
  assert (Hlen : String.length ip1 = String.length ip2).
  { apply (f_equal (@List.length ascii)) in Heq. rewrite !length_app in Heq.
    simpl in Heq. rewrite !length_list_ascii_of_string in Heq. lia. }
  apply app_split_len in Heq; [|rewrite !length_list_ascii_of_string; exact Hlen].
  destruct Heq as [H1 H2]. simpl in H2. injection H2 as H2.
  apply list_ascii_of_string_inj in H1. apply list_ascii_of_string_inj in H2.
  destruct Hd; contradiction.
Qed.

(** Rate-limit buckets are separate across client addresses and across
    the [markets] and [analyze] endpoints (endpoint names of one length):
    their keys differ, and a call of [check_rate_limit] leaves the record
    of every other bucket as it was. *)
Theorem check_rate_limit_isolated (st : store) (ip1 ip2 ep1 ep2 : string)
    (max_requests window_seconds : Z) (now : Q) :
  String.length ep1 = String.length ep2 -> (ip1 <> ip2 \/ ep1 <> ep2) ->
  rate_key ip1 ep1 <> rate_key ip2 ep2
  /\ snd (check_rate_limit st ip1 ep1 max_requests window_seconds now) (rate_key ip2 ep2)
     = st (rate_key ip2 ep2).
Proof.
  intros Hl Hd. pose proof (rate_key_distinct ip1 ip2 ep1 ep2 Hl Hd) as Hne.
  split; [exact Hne|].
  unfold check_rate_limit.
  destruct (max_requests <=? Z.of_nat _)%Z; simpl; unfold update;
    replace (String.eqb (rate_key ip2 ep2) (rate_key ip1 ep1)) with false
      by (symmetry; apply String.eqb_neq; congruence); reflexivity.
Qed.

Lemma check_rate_limit_isolated_witness :
  rate_key "203.0.113.7" "markets" <> rate_key "203.0.113.7" "analyze".
Proof.
  refine (proj1 (check_rate_limit_isolated empty_store "203.0.113.7" "203.0.113.7"
    "markets" "analyze" 60 60 0 eq_refl _)).
  right. discriminate.
Defined.

End ClientFacts.

(* ================================================================== *)
(** * Theorems: ranges of the scorer *)

Module ScorerRangeFacts.
Import Py Scorer.
Local Open Scope Q_scope.

(** A finite float in [0, 100]. *)
Definition in_0_100 (x : pyfloat) : Prop := exists q, x = Fin q /\ 0 <= q <= 100.

(** A float that is not below 0 and not NaN-free negative: NaN, [inf] or
    a finite value [>= 0]. *)
Definition nonneg (x : pyfloat) : Prop :=
  x = NaN \/ x = PInf \/ exists q, x = Fin q /\ 0 <= q.

Lemma round_half_even_bounds (a b : Z) (x : Q) :
  inject_Z a <= x -> x <= inject_Z b ->
  (a <= round_half_even x <= b)%Z.
Proof.
  intros Ha Hb. unfold round_half_even.
  pose proof (Qfloor_le x) as Hf. pose proof (Qlt_floor x) as Hf1.
  assert (Haf : (a <= Qfloor x)%Z).
  { rewrite <- (Qfloor_Z a). apply Qfloor_resp_le. exact Ha. }
  assert (Hfb : (Qfloor x <= b)%Z).
  { rewrite <- (Qfloor_Z b). apply Qfloor_resp_le. exact Hb. }
  assert (Hup : 0 < x - inject_Z (Qfloor x) -> (Qfloor x + 1 <= b)%Z).
  { intros Hp. assert (Hlt : (Qfloor x < b)%Z); [|lia].
    rewrite Zlt_Qlt. lra. }
  destruct (Qle_bool (1 # 2) (x - inject_Z (Qfloor x))) eqn:E1; simpl; [|lia].
  apply Qle_bool_iff in E1.
  assert (Hp : 0 < x - inject_Z (Qfloor x)) by lra.
  specialize (Hup Hp).
  destruct (Qle_bool (x - inject_Z (Qfloor x)) (1 # 2)); simpl; [|lia].
  destruct (Z.even (Qfloor x)); lia.
Qed.

Lemma round1_in_range (x : pyfloat) : in_0_100 x -> in_0_100 (round1 x).
Proof.
  intros [q [-> [H0 H1]]]. simpl.
  assert (Hr : (0 <= round_half_even (q * 10) <= 1000)%Z).
  { apply round_half_even_bounds; unfold inject_Z; lra. }
  eexists. split; [reflexivity|]. unfold Qle; simpl; split; lia.
Qed.

Lemma min100_in_range (x : pyfloat) : nonneg x -> in_0_100 (py_min (Fin 100) x).
Proof.
  intros [->|[->|[q [-> Hq]]]]; unfold py_min, pf_lt.
  - exists 100. split; [reflexivity|]. lra.
  - exists 100. split; [reflexivity|]. lra.
  - destruct (Qle_bool 100 q) eqn:E; simpl.
    + exists 100. split; [reflexivity|]. lra.
    + assert (Hq' : ~ 100 <= q) by (intros H; apply Qle_bool_iff in H; congruence).
      exists q. split; [reflexivity|]. split; [exact Hq|]. apply Qlt_le_weak, Qnot_le_lt, Hq'.
Qed.

Lemma nonneg_abs (x : pyfloat) : nonneg (pf_abs x).
Proof.
  destruct x; simpl; unfold nonneg; auto.
  right. right. exists (Qabs q). split; [reflexivity|]. apply Qabs_nonneg.
Qed.

Lemma nonneg_scale (x : pyfloat) (c : Q) : 0 < c -> nonneg x -> nonneg (pf_scale x c).
Proof.
  intros Hc [->|[->|[q [-> Hq]]]]; simpl; unfold nonneg; auto.
  - replace (Qeq_bool c 0) with false.
    + replace (Qle_bool 0 c) with true; auto.
      symmetry. apply Qle_bool_iff. lra.
    + symmetry. apply Bool.not_true_iff_false. intros E. apply Qeq_bool_eq in E. lra.
  - right. right. exists (q * c). split; [reflexivity|].
    apply Qmult_le_0_compat; lra.
Qed.

Lemma nonneg_add (x y : pyfloat) : nonneg x -> nonneg y -> nonneg (pf_add x y).
Proof.
  intros [->|[->|[p [-> Hp]]]] [->|[->|[q [-> Hq]]]]; simpl; unfold nonneg; auto.
  right. right. exists (p + q). split; [reflexivity|]. lra.
Qed.

Lemma in_range_nonneg (x : pyfloat) : in_0_100 x -> nonneg x.
Proof. intros [q [-> Hq]]. right. right. exists q. split; [reflexivity|]. lra. Qed.

Section Log.
Variable log10 : pyfloat -> pyfloat.
Hypothesis log10_fin : forall q, 1 <= q -> exists r, log10 (Fin q) = Fin r /\ 0 <= r.
Hypothesis log10_inf : log10 PInf = PInf.

Lemma max1_cases (x : pyfloat) :
  py_max (Fin 1) x = PInf \/ exists q, py_max (Fin 1) x = Fin q /\ 1 <= q.
Proof.
  destruct x as [q| | |]; unfold py_max, pf_lt; simpl.
  - destruct (Qle_bool q 1) eqn:E; simpl.
    + right. exists 1. split; [reflexivity|]. lra.
    + right. exists q. split; [reflexivity|].
      assert (~ q <= 1) by (intros H; apply Qle_bool_iff in H; congruence).
      apply Qlt_le_weak, Qnot_le_lt. assumption.
  - left. reflexivity.
  - right. exists 1. split; [reflexivity|]. lra.
  - right. exists 1. split; [reflexivity|]. lra.
Qed.

Lemma log_score_in_range (x : pyfloat) : in_0_100 (log_score log10 x).
Proof.
  unfold log_score. apply min100_in_range. apply nonneg_scale; [reflexivity|].
  destruct (max1_cases x) as [E|[q [E Hq]]]; rewrite E.
  - rewrite log10_inf. right. left. reflexivity.
  - destruct (log10_fin q Hq) as [r [Er Hr]]. rewrite Er.
    right. right. exists r. auto.
Qed.

Lemma engagement_in_range (cc : Z) (featured : pyval) :
  in_0_100 (engagement log10 cc featured).
Proof.
  unfold engagement.
  assert (He : in_0_100 (py_min (Fin 100)
                 (pf_scale (log10 (Fin (inject_Z (Z.max 1 cc)))) 30))).
  { apply min100_in_range. apply nonneg_scale; [reflexivity|].
    assert (H1 : 1 <= inject_Z (Z.max 1 cc)).
    { change 1 with (inject_Z 1). rewrite <- Zle_Qle. lia. }
    destruct (log10_fin _ H1) as [r [Er Hr]]. rewrite Er. right. right. exists r. auto. }
  destruct (truthy featured); [|exact He].
  apply min100_in_range. apply nonneg_add; [apply in_range_nonneg; exact He|].
  right. right. exists 20. split; [reflexivity|]. lra.
Qed.

End Log.

Lemma momentum_in_range (a b : pyfloat) : in_0_100 (momentum a b).
Proof.
  unfold momentum. apply min100_in_range.
  apply nonneg_add; apply nonneg_scale; try reflexivity; apply nonneg_abs.
Qed.

Lemma timing_in_range (d : option Z) : in_0_100 (Fin (inject_Z (timing d))).
Proof.
  exists (inject_Z (timing d)). split; [reflexivity|].
  assert (H : (30 <= timing d <= 100)%Z).
  { unfold timing. destruct d as [d|]; [|lia].
    destruct (d <? 1)%Z; [lia|]. destruct (d <? 7)%Z; [lia|].
    destruct (d <? 30)%Z; [lia|]. destruct (d <? 90)%Z; lia. }
  change 0 with (inject_Z 0). change 100 with (inject_Z 100).
  rewrite <- !Zle_Qle. lia.
Qed.

Lemma spread_factor_in_range (s : pyfloat) :
  pf_lt s (Fin 0) = false -> in_0_100 (spread_factor s).
Proof.
  intros Hs. unfold spread_factor, py_max.
  destruct s as [q| | |]; simpl in *.
  - assert (Hq : 0 <= q).
    { apply Bool.negb_false_iff, Qle_bool_iff in Hs. exact Hs. }
    destruct (Qle_bool (100 + - (q * 2000)) 0) eqn:E; simpl.
    + exists 0. split; [reflexivity|]. lra.
    + exists (100 + - (q * 2000)). split; [reflexivity|].
      assert (~ 100 + - (q * 2000) <= 0) by (intros H; apply Qle_bool_iff in H; congruence).
      assert (0 < 100 + - (q * 2000)) by (apply Qnot_le_lt; assumption).
      lra.
  - exists 0. split; [reflexivity|]. lra.
  - discriminate.
  - exists 0. split; [reflexivity|]. lra.
Qed.

Lemma uncertainty_in_range (p : Q) : 0 <= p <= 1 -> in_0_100 (uncertainty (Fin p)).
Proof.
  intros Hp. unfold uncertainty. simpl.
  exists (100 + - (Qabs (p + - (1 # 2)) * 200)). split; [reflexivity|].
  assert (Ha : Qabs (p + - (1 # 2)) <= 1 # 2).
  { apply Qabs_Qle_condition. lra. }
  pose proof (Qabs_nonneg (p + - (1 # 2))). lra.
Qed.

Lemma weighted_in_range (m v l sp u t e : pyfloat) :
  in_0_100 m -> in_0_100 v -> in_0_100 l -> in_0_100 sp -> in_0_100 u ->
  in_0_100 t -> in_0_100 e ->
  in_0_100 (pf_add (pf_add (pf_add (pf_add (pf_add (pf_add
      (pf_scale m (25 # 100)) (pf_scale v (20 # 100)))
      (pf_scale l (15 # 100))) (pf_scale sp (10 # 100)))
      (pf_scale u (15 # 100))) (pf_scale t (10 # 100)))
      (pf_scale e (5 # 100))).
Proof.
  intros [qm [-> Hm]] [qv [-> Hv]] [ql [-> Hl]] [qs [-> Hs]] [qu [-> Hu]]
         [qt [-> Ht]] [qe [-> He]]. simpl.
  eexists. split; [reflexivity|]. lra.
Qed.

(** The scores of [calculate_opportunity_score]: momentum, volume,
    liquidity, timing and engagement are always finite and in [0, 100]
    (for a [math.log10] that is finite and [>= 0] on [[1, inf)] and
    [inf] at [inf]); the spread score is in range when the spread is not
    negative, the uncertainty score when the price is in [0, 1], and the
    opportunity score when both hold. *)
Theorem opportunity_score_ranges log10 days_until_of (market event : dict)
    (sm : ScoredMarket) :
  (forall q, 1 <= q -> exists r, log10 (Fin q) = Fin r /\ 0 <= r) ->
  log10 PInf = PInf ->
  calculate_opportunity_score log10 days_until_of market event = Ok sm ->
  in_0_100 (momentum_score (score_breakdown sm))
  /\ in_0_100 (volume_score (score_breakdown sm))
  /\ in_0_100 (liquidity_score (score_breakdown sm))
  /\ in_0_100 (timing_score (score_breakdown sm))
  /\ in_0_100 (engagement_score (score_breakdown sm))
  /\ (pf_lt (spread sm) (Fin 0) = false -> in_0_100 (spread_score (score_breakdown sm)))
  /\ (forall p, yes_price sm = Fin p -> 0 <= p <= 1 ->
        in_0_100 (uncertainty_score (score_breakdown sm))
        /\ (pf_lt (spread sm) (Fin 0) = false -> in_0_100 (opportunity_score sm))).
Proof.
  intros Hfin Hinf H. unfold calculate_opportunity_score in H.
  repeat (apply ServiceFacts.bind_ok in H; destruct H as [? [_ H]]).
  injection H as <-.
  split; [apply round1_in_range, momentum_in_range|].
  split; [apply round1_in_range, log_score_in_range; assumption|].
  split; [apply round1_in_range, log_score_in_range; assumption|].
  split; [exact (round1_in_range _ (timing_in_range _))|].
  split; [apply round1_in_range, engagement_in_range; assumption|].
  split; [intros Hs; apply round1_in_range, spread_factor_in_range; exact Hs|].
  intros p Hp Hp01. cbn [yes_price] in Hp. subst.
  split; [apply round1_in_range, uncertainty_in_range; exact Hp01|].
  intros Hs. cbn [spread] in Hs.
  exact (round1_in_range _ (weighted_in_range _ _ _ _ _ _ _
    (momentum_in_range _ _)
    (log_score_in_range _ Hfin Hinf _)
    (log_score_in_range _ Hfin Hinf _)
    (spread_factor_in_range _ Hs)
    (uncertainty_in_range _ Hp01)
    (timing_in_range _)
    (engagement_in_range _ Hfin _ _))).
Qed.

(** A stand-in for [math.log10] with the properties the theorem asks for. *)
Definition log10_shifted (x : pyfloat) : pyfloat :=
  match x with
  | Fin q => Fin (q - 1)
  | other => other
  end.

Lemma opportunity_score_ranges_witness :
  exists sm, calculate_opportunity_score log10_shifted (fun _ => None) [] [] = Ok sm
             /\ in_0_100 (opportunity_score sm).
Proof.
  eexists. split; [reflexivity|].
  assert (Hfin : forall q, 1 <= q -> exists r, log10_shifted (Fin q) = Fin r /\ 0 <= r).
  { intros q Hq. exists (q - 1). split; [reflexivity|]. lra. }
  pose proof (opportunity_score_ranges log10_shifted (fun _ => None) [] [] _ Hfin eq_refl eq_refl)
    as [_ [_ [_ [_ [_ [_ Hp]]]]]].
  apply (proj2 (Hp (1 # 2) eq_refl
                  (conj (Qle_bool_imp_le 0 (1 # 2) eq_refl) (Qle_bool_imp_le (1 # 2) 1 eq_refl)))).
  reflexivity.
Defined.

End ScorerRangeFacts.

(* ================================================================== *)
(** * Theorems: the ledger operations *)

Module LedgerOpsFacts.
Import Py Ranking Ledger LedgerOps.
Local Open Scope Q_scope.

(** The sum of the amounts of a list of trades. *)
Definition total_amount (ts : list Trade) : Q := fold_right Qplus 0 (map amount ts).

(** What every reachable database satisfies. *)
Definition ledger_inv (initial_balance : Q) (db : Db) : Prop :=
  exists b, portfolio db = Some b /\ 0 <= b
  /\ b + total_amount (trades db) == initial_balance
  /\ Forall (fun t => status t = ACTIVE /\ 1 <= amount t
                      /\ exists e, entry_price t = Some e /\ 0 <= e <= 1) (trades db)
  /\ NoDup (map id (trades db))
  /\ Forall (fun t => (0 < id t)%Z) (trades db).

Lemma fold_right_Qplus_init (l : list Q) (x : Q) :
  fold_right Qplus x l == fold_right Qplus 0 l + x.
Proof.
  induction l as [|a l IH]; simpl; [lra|]. rewrite IH. lra.
Qed.

Lemma total_amount_snoc (ts : list Trade) (t : Trade) :
  total_amount (ts ++ [t])%list == total_amount ts + amount t.
Proof.
  unfold total_amount. rewrite map_app, fold_right_app. simpl.
  rewrite fold_right_Qplus_init. lra.
Qed.

Lemma max_fold_bounds (ts : list Trade) (m0 : Z) :
  (m0 <= fold_left (fun m t => Z.max m (id t)) ts m0)%Z
  /\ Forall (fun t => (id t <= fold_left (fun m t => Z.max m (id t)) ts m0)%Z) ts.
Proof.
  revert m0. induction ts as [|t ts IH]; intros m0; simpl; [split; [lia|constructor]|].
  destruct (IH (Z.max m0 (id t))) as [H1 H2]. split; [lia|]. constructor; [lia|exact H2].
Qed.

Lemma next_id_fresh (ts : list Trade) :
  (0 < next_id ts)%Z /\ Forall (fun t => (id t < next_id ts)%Z) ts.
Proof.
  unfold next_id. destruct (max_fold_bounds ts 0%Z) as [H1 H2]. split; [lia|].
  eapply Forall_impl; [|exact H2]. intros t Ht. cbv beta in *. lia.
Qed.

Lemma simulate_trade_cases (db : Db) (req : SimulateTradeRequest) :
  snd (simulate_trade db req) = db
  \/ exists balance amt dir,
       portfolio db = Some balance
       /\ validation_errors req = [] /\ validate_amount (req_amount req) = inr amt
       /\ amt <= balance
       /\ direction_of_string (req_direction req) = Some dir
       /\ snd (simulate_trade db req)
          = mkDb (Some (balance - amt))
              (trades db ++ [mkTrade (next_id (trades db)) (req_market_id req)
                               (req_market_question req) dir amt
                               (Some (req_price req)) (Some (req_price req)) ACTIVE])%list.
Proof.
  unfold simulate_trade.
  destruct (validation_errors req) eqn:Ev; [|left; reflexivity].
  destruct (validate_amount (req_amount req)) as [m|amt] eqn:Ea; [left; reflexivity|].
  destruct (portfolio db) as [balance|] eqn:Ep; [|left; reflexivity].
  destruct (Qle_bool amt 0); [left; reflexivity|].
  destruct (Qltb balance amt) eqn:El; [left; reflexivity|].
  destruct (direction_of_string (req_direction req)) as [dir|] eqn:Ed; [|left; reflexivity].
  right. exists balance, amt, dir. repeat split; auto.
  unfold Qltb in El. apply Bool.negb_false_iff, Qle_bool_iff in El. exact El.
Qed.

Lemma price_ok_of_nil (req : SimulateTradeRequest) :
  validation_errors req = [] -> 0 <= req_price req <= 1.
Proof.
  intros H. destruct (Qle_bool 0 (req_price req)) eqn:E0;
  destruct (Qle_bool (req_price req) 1) eqn:E1.
  all: try (split; apply Qle_bool_iff; assumption).
  all: exfalso; revert H; unfold validation_errors, validate_price;
      rewrite E0; try rewrite E1; simpl;
      destruct (validate_amount _); destruct (validate_direction _); discriminate.
Qed.

Lemma with_current_price_fields (f : Trade -> option Q) (ts : list Trade) :
  map amount (map (fun t => with_current_price t (f t)) ts) = map amount ts
  /\ map id (map (fun t => with_current_price t (f t)) ts) = map id ts.
Proof.
  rewrite !map_map. split; apply map_ext; reflexivity.
Qed.

Lemma ledger_inv_of_reachable (initial_balance : Q) (db : Db) :
  0 <= initial_balance -> reachable initial_balance db -> ledger_inv initial_balance db.
Proof.
  intros H0 R. induction R as [| db R IH | db req R IH | db R IH | db f R IH].
  - exists initial_balance. simpl. unfold total_amount. simpl.
    repeat split; try lra; constructor.
  - destruct IH as [b [Hb Hrest]]. unfold lifespan_init. rewrite Hb.
    exists b. rewrite Hb. split; [reflexivity|exact Hrest].
  - destruct (simulate_trade_cases db req) as [E|[balance [amt [dir [Hp [Hv [Ha [Hle [Hd E]]]]]]]]];
      rewrite E; [exact IH|].
    destruct IH as [b [Hb [Hb0 [Hsum [Hts [Hnd Hpos]]]]]].
    rewrite Hp in Hb. injection Hb as <-.
    destruct (LedgerFacts.validate_amount_inr _ _ Ha) as [Har [H1 _]].
    pose proof (LedgerFacts.round2_ge_1 _ H1) as Hamt. rewrite <- Har in Hamt.
    destruct (next_id_fresh (trades db)) as [Hn0 Hfresh].
    exists (balance - amt). simpl. split; [reflexivity|]. split; [lra|].
    split; [rewrite total_amount_snoc; simpl; lra|].
    split; [apply Forall_app; split; [exact Hts|]|].
    { constructor; [|constructor]. simpl. split; [reflexivity|]. split; [exact Hamt|].
      exists (req_price req). split; [reflexivity|]. apply price_ok_of_nil. exact Hv. }
    split.
    + rewrite map_app. apply ServiceFacts.NoDup_snoc; [exact Hnd|]. simpl.
      intros Hin. apply in_map_iff in Hin. destruct Hin as [t [Ht Hin]].
      rewrite Forall_forall in Hfresh. specialize (Hfresh t Hin). lia.
    + apply Forall_app. split; [exact Hpos|]. constructor; [exact Hn0|constructor].
  - destruct IH as [b [Hb Hrest]]. unfold reset_portfolio. rewrite Hb.
    exists initial_balance. simpl. unfold total_amount. simpl.
    repeat split; try lra; constructor.
  - destruct IH as [b [Hb [Hb0 [Hsum [Hts [Hnd Hpos]]]]]].
    destruct (with_current_price_fields f (trades db)) as [Ham Hid].
    exists b. simpl. split; [exact Hb|]. split; [exact Hb0|].
    split; [unfold total_amount; rewrite Ham; exact Hsum|].
    split; [|split; [rewrite Hid; exact Hnd|]].
    + apply Forall_map. eapply Forall_impl; [|exact Hts]. simpl. auto.
    + apply Forall_map. eapply Forall_impl; [|exact Hpos]. simpl. auto.
Qed.



Lemma portfolio_loop_total (ts : list Trade) (acc : Q) :
  Forall (fun t => exists e, entry_price t = Some e) ts ->
  exists r, portfolio_loop ts acc = Ok r /\ map fst (fst r) = ts.
Proof.
  revert acc. induction ts as [|t ts IH]; intros acc H; simpl; [eexists; split; reflexivity|].
  inversion H as [|? ? [e He] Hts]; subst.
  destruct (LedgerFacts.trade_pnl_never_div_zero t) as [p Hp]. rewrite Hp. simpl.
  unfold trade_info. rewrite He. simpl.
  destruct (IH (acc + p) Hts) as [r [Hr Hm]]. rewrite Hr. simpl.
  eexists. split; [reflexivity|]. simpl. rewrite Hm. reflexivity.
Qed.



(** [/reset-portfolio] answers 404 and changes nothing when there is no
    portfolio row; otherwise afterwards the portfolio view shows the
    initial balance, no trades and a total pnl of 0, and the next trade
    created gets id 1 again (ids of deleted trades are reused). *)
Theorem reset_portfolio_effect (initial_balance : Q) (db : Db) :
  (portfolio db = None -> reset_portfolio initial_balance db = (ResetNotFound, db))
  /\ (forall b, portfolio db = Some b ->
        fst (reset_portfolio initial_balance db)
          = ResetOk initial_balance "Portfolio reset successfully"%string
        /\ (forall scan, (forall l, Permutation (scan l) l) ->
             get_portfolio scan (snd (reset_portfolio initial_balance db))
             = Ok (PortfolioInfo initial_balance [] 0))
        /\ forall req t b',
             fst (simulate_trade (snd (reset_portfolio initial_balance db)) req)
               = TradeOk t b' -> id t = 1%Z).
Proof.
  unfold reset_portfolio. split; [intros H; rewrite H; reflexivity|].
  intros b H. rewrite H. simpl. split; [reflexivity|]. split.
  { intros scan Hscan. unfold get_portfolio. simpl.
    rewrite (Permutation_nil (Permutation_sym (Hscan []))). reflexivity. }
  intros req t b' Ht. unfold simulate_trade in Ht. simpl in Ht.
  destruct (validation_errors req); [|discriminate].
  destruct (validate_amount (req_amount req)) as [m|amt]; [discriminate|].
  destruct (Qle_bool amt 0); [discriminate|].
  destruct (Qltb initial_balance amt); [discriminate|].
  destruct (direction_of_string (req_direction req)); [|discriminate].
  simpl in Ht. injection Ht as <- _. reflexivity.
Qed.

(** A market lookup has found a market. *)
Definition found (r : option (option Service.MarketQuote)) : bool :=
  match r with Some (Some _) => true | _ => false end.

Lemma update_loop_spec lookup (ts : list Trade) :
  snd (update_loop lookup ts) = List.length (fst (update_loop lookup ts))
  /\ snd (update_loop lookup ts) = List.length (filter (fun t => found (lookup t)) ts)
  /\ Forall (fun a => exists t m, In t ts /\ id t = fst a /\ lookup t = Some (Some m)
               /\ snd a = match direction t with
                          | YES => Service.quote_yes m
                          | NO => Service.quote_no m
                          end) (fst (update_loop lookup ts)).
Proof.
  induction ts as [|t ts IH]; simpl; [split; [reflexivity|split; [reflexivity|constructor]]|].
  destruct (update_loop lookup ts) as [asg n]. simpl in IH. destruct IH as [H1 [H2 H3]].
  destruct (lookup t) as [[m|]|] eqn:E; simpl.
  - split; [rewrite H1; reflexivity|]. split; [rewrite H2; reflexivity|].
    constructor.
    + exists t, m. simpl. repeat split; auto.
    + eapply Forall_impl; [|exact H3]. intros a [t' [m' [Hin Hr]]].
      exists t', m'. split; [right; exact Hin|exact Hr].
  - split; [exact H1|]. split; [exact H2|].
    eapply Forall_impl; [|exact H3]. intros a [t' [m' [Hin Hr]]].
    exists t', m'. split; [right; exact Hin|exact Hr].
  - split; [exact H1|]. split; [exact H2|].
    eapply Forall_impl; [|exact H3]. intros a [t' [m' [Hin Hr]]].
    exists t', m'. split; [right; exact Hin|exact Hr].
Qed.

(** [/update-prices] assigns a price only to ACTIVE trades whose market
    was found, the YES price to a YES trade and the NO price to a NO
    trade; [updated_count] is the number of assignments, that is the
    number of active trades whose market was found, never more than the
    number of active trades. *)
Theorem update_trade_prices_counts lookup (db : Db) :
  let r := update_trade_prices lookup db in
  pu_updated_count (snd r) = List.length (fst r)
  /\ pu_updated_count (snd r)
     = List.length (filter (fun t => found (lookup t)) (filter is_active (trades db)))
  /\ (pu_updated_count (snd r) <= List.length (filter is_active (trades db)))%nat
  /\ Forall (fun a => exists t m, In t (trades db) /\ is_active t = true /\ id t = fst a
               /\ lookup t = Some (Some m)
               /\ snd a = match direction t with
                          | YES => Service.quote_yes m
                          | NO => Service.quote_no m
                          end) (fst r).
Proof.
  unfold update_trade_prices.
  destruct (update_loop_spec lookup (filter is_active (trades db))) as [H1 [H2 H3]].
  destruct (update_loop lookup (filter is_active (trades db))) as [asg n]. simpl in *.
  split; [exact H1|]. split; [exact H2|]. split.
  - rewrite H2. apply filter_length_le.
  - eapply Forall_impl; [|exact H3]. intros a [t [m [Hin Hr]]].
    apply filter_In in Hin. destruct Hin as [Hin Ha]. exists t, m. auto.
Qed.

End LedgerOpsFacts.

(* ================================================================== *)
(** * Theorems: the ranking with a negative limit *)

Module RankingLimitFacts.
Import Py Ranking.



End RankingLimitFacts.

(* ================================================================== *)
(** * Theorems: the normalization of an analysis *)

Module AnalysisFacts.
Import Py PyExtra Analysis.
Local Open Scope string_scope.

Lemma get_default_dict_set_same (d : dict) (k : string) (v dflt : pyval) :
  get_default (dict_set d k v) k dflt = v.
Proof.
  induction d as [|[k' v'] d IH]; simpl; [rewrite String.eqb_refl; reflexivity|].
  destruct (String.eqb k k') eqn:E; simpl; rewrite E; [reflexivity|exact IH].
Qed.

Lemma get_default_dict_set_other (d : dict) (k k' : string) (v dflt : pyval) :
  k' <> k -> get_default (dict_set d k v) k' dflt = get_default d k' dflt.
Proof.
  intros Hne. induction d as [|[k0 v0] d IH]; simpl.
  - replace (String.eqb k' k) with false by (symmetry; apply String.eqb_neq; exact Hne).
    reflexivity.
  - destruct (String.eqb k k0) eqn:E; simpl.
    + apply String.eqb_eq in E. subst k0.
      replace (String.eqb k' k) with false by (symmetry; apply String.eqb_neq; exact Hne).
      reflexivity.
    + destruct (String.eqb k' k0); [reflexivity|exact IH].
Qed.

Lemma has_key_dict_set (d : dict) (k k' : string) (v : pyval) :
  has_key d k' = true \/ k' = k -> has_key (dict_set d k v) k' = true.
Proof.
  unfold has_key. induction d as [|[k0 v0] d IH]; simpl; intros H.
  - destruct H as [H|H]; [discriminate|subst; rewrite String.eqb_refl; reflexivity].
  - destruct (String.eqb k k0) eqn:E; simpl.
    + apply String.eqb_eq in E. subst k0. destruct H as [H|H]; [exact H|].
      subst. rewrite String.eqb_refl. reflexivity.
    + destruct (String.eqb k0 k'); [reflexivity|]. simpl. apply IH.
      destruct H as [H|H]; [left; exact H|right; exact H].
Qed.

Lemma has_key_setdefault (d : dict) (k k' : string) (v : pyval) :
  has_key d k' = true \/ k' = k -> has_key (setdefault d k v) k' = true.
Proof.
  unfold setdefault. destruct (has_key d k) eqn:E; intros [H|H]; subst; auto.
  - unfold has_key in *. rewrite existsb_app. rewrite H. reflexivity.
  - unfold has_key in *. rewrite existsb_app. simpl. rewrite String.eqb_refl.
    apply Bool.orb_true_r.
Qed.

Lemma get_not_has_key (d : dict) (k : string) :
  has_key d k = false -> get d k = PNone.
Proof.
  unfold get, has_key. induction d as [|[k0 v0] d IH]; simpl; [reflexivity|].
  intros H. apply Bool.orb_false_iff in H. destruct H as [H1 H2].
  rewrite String.eqb_sym in H1. rewrite H1. exact (IH H2).
Qed.

(** [max(0.0, min(1.0, v))] is a float of [0, 1] whenever it does not
    raise. *)
Lemma clamp01 (v m p : pyval) :
  py_min_val (PFloat (Fin 1)) v = Ok m -> py_max_val (PFloat (Fin 0)) m = Ok p ->
  exists q, p = PFloat (Fin q) /\ (0 <= q <= 1)%Q.
Proof.
  unfold py_min_val, py_max_val, num_lt. intros Hm Hp.
  destruct (num_value v) as [x|] eqn:Ev; simpl in Hm; [|discriminate].
  injection Hm as <-.
  destruct (pf_lt x (Fin 1)) eqn:Elt.
  - assert (Hp' : p = if pf_lt (Fin 0) x then v else PFloat (Fin 0)).
    { rewrite Ev in Hp. simpl in Hp. injection Hp as <-. reflexivity. }
    rewrite Hp'. clear Hp Hp'.
    destruct (pf_lt (Fin 0) x) eqn:Egt.
    + destruct x as [q| | |]; simpl in Elt, Egt; try discriminate.
      apply Bool.negb_true_iff in Elt, Egt.
      assert (H1 : (q < 1)%Q) by (apply Qnot_le_lt; intros H; apply Qle_bool_iff in H; congruence).
      assert (H0 : (0 < q)%Q) by (apply Qnot_le_lt; intros H; apply Qle_bool_iff in H; congruence).
      destruct v as [|b|z|f| | |]; simpl in Ev; try discriminate; injection Ev as Ev.
      * exfalso. destruct b; subst q; [apply (Qlt_irrefl 1)|apply (Qlt_irrefl 0)]; assumption.
      * exfalso. subst q. change 0%Q with (inject_Z 0) in H0. change 1%Q with (inject_Z 1) in H1.
        rewrite <- Zlt_Qlt in H0, H1. lia.
      * subst f. exists q. split; [reflexivity|]. split; apply Qlt_le_weak; assumption.
    + exists 0%Q. split; [reflexivity|]. split; discriminate.
  - simpl in Hp. injection Hp as <-. exists 1%Q. split; [reflexivity|]. split; discriminate.
Qed.

Lemma normalize_recommendation_ok (rec rec' : dict) :
  normalize_recommendation rec = Ok rec' ->
  in_str_list (get rec' "action") valid_actions = true
  /\ in_str_list (get rec' "risk_level") valid_risk_levels = true
  /\ (get rec' "amount" = PNone \/ get rec' "amount" = PInt 0
      \/ get rec' "amount" = PFloat PInf
      \/ exists f, get rec' "amount" = PFloat (Fin f) /\ (0 < f)%Q)
  /\ (get rec' "kelly_fraction" = PNone
      \/ exists k, get rec' "kelly_fraction" = PFloat (Fin k) /\ (0 <= k <= 1)%Q).
Proof.
  unfold normalize_recommendation. intros H.
  set (rec1 := if in_str_list (get rec "action") valid_actions then rec
               else dict_set rec "action" (PStr "SKIP")) in H.
  set (rec2 := if in_str_list (get rec1 "risk_level") valid_risk_levels then rec1
               else dict_set rec1 "risk_level" (PStr "medium")) in H.
  assert (Ha1 : in_str_list (get rec1 "action") valid_actions = true).
  { subst rec1. destruct (in_str_list (get rec "action") valid_actions) eqn:E; [exact E|].
    unfold get. rewrite get_default_dict_set_same. reflexivity. }
  assert (Ha2 : get rec2 "action" = get rec1 "action").
  { subst rec2. destruct (in_str_list (get rec1 "risk_level") valid_risk_levels); [reflexivity|].
    unfold get. apply get_default_dict_set_other. discriminate. }
  assert (Hr2 : in_str_list (get rec2 "risk_level") valid_risk_levels = true).
  { subst rec2. destruct (in_str_list (get rec1 "risk_level") valid_risk_levels) eqn:E; [exact E|].
    unfold get. rewrite get_default_dict_set_same. reflexivity. }
  apply ServiceFacts.bind_ok in H. destruct H as [rec3 [H3 H]].
  apply ServiceFacts.bind_ok in H. destruct H as [rec4 [H4 H]].
  injection H as <-.
  (* what the amount step does *)
  assert (Hk3 : forall k, k <> "amount" -> get rec3 k = get rec2 k).
  { intros k Hk. destruct (is_none (get rec2 "amount")).
    - injection H3 as <-. reflexivity.
    - apply ServiceFacts.bind_ok in H3. destruct H3 as [f [_ H3]].
      apply ServiceFacts.bind_ok in H3. destruct H3 as [m [_ H3]].
      injection H3 as <-. unfold get. apply get_default_dict_set_other. exact Hk. }
  assert (Ham3 : get rec3 "amount" = PNone \/ get rec3 "amount" = PInt 0
                 \/ get rec3 "amount" = PFloat PInf
                 \/ exists f, get rec3 "amount" = PFloat (Fin f) /\ (0 < f)%Q).
  { destruct (is_none (get rec2 "amount")) eqn:En.
    - injection H3 as <-. left. destruct (get rec2 "amount"); try discriminate. reflexivity.
    - apply ServiceFacts.bind_ok in H3. destruct H3 as [f [_ H3]].
      apply ServiceFacts.bind_ok in H3. destruct H3 as [m [Hm H3]].
      injection H3 as <-. unfold get. rewrite !get_default_dict_set_same.
      unfold py_max_val, num_lt in Hm. simpl in Hm. injection Hm as <-.
      destruct f as [q| | |]; simpl; change (inject_Z 0) with 0%Q.
      + destruct (Qle_bool q 0) eqn:E; simpl; [right; left; reflexivity|].
        right. right. right. exists q. split; [reflexivity|].
        apply Qnot_le_lt. intros Hq. apply Qle_bool_iff in Hq. congruence.
      + right. right. left. reflexivity.
      + right. left. reflexivity.
      + right. left. reflexivity. }
  assert (Hk4 : forall k, k <> "kelly_fraction" -> get rec4 k = get rec3 k).
  { intros k Hk. destruct (is_none (get rec3 "kelly_fraction")).
    - injection H4 as <-. reflexivity.
    - apply ServiceFacts.bind_ok in H4. destruct H4 as [f [_ H4]].
      apply ServiceFacts.bind_ok in H4. destruct H4 as [m [_ H4]].
      apply ServiceFacts.bind_ok in H4. destruct H4 as [m' [_ H4]].
      injection H4 as <-. unfold get. apply get_default_dict_set_other. exact Hk. }
  split; [rewrite Hk4, Hk3, Ha2 by discriminate; exact Ha1|].
  split; [rewrite Hk4, Hk3 by discriminate; exact Hr2|].
  split; [rewrite Hk4 by discriminate; exact Ham3|].
  destruct (is_none (get rec3 "kelly_fraction")) eqn:En.
  - injection H4 as <-. left. destruct (get rec3 "kelly_fraction"); try discriminate. reflexivity.
  - apply ServiceFacts.bind_ok in H4. destruct H4 as [f [_ H4]].
    apply ServiceFacts.bind_ok in H4. destruct H4 as [m [Hm H4]].
    apply ServiceFacts.bind_ok in H4. destruct H4 as [m' [Hm' H4]].
    injection H4 as <-. right. unfold get. rewrite get_default_dict_set_same.
    exact (clamp01 _ _ _ Hm Hm').
Qed.

Lemma normalize_analysis_steps json_loads (content : string) (current_price : pyfloat) (d : dict) :
  normalize_analysis json_loads content current_price = Ok d ->
  exists d2 p,
    (exists q, p = PFloat (Fin q) /\ (0 <= q <= 1)%Q)
    /\ get d2 "estimated_probability" = p
    /\ has_key d2 "confidence" = true /\ has_key d2 "key_events" = true
    /\ has_key d2 "risks" = true /\ has_key d2 "sources" = true
    /\ ((d = d2 /\ (has_key d2 "recommendation" && truthy (get d2 "recommendation")) = false)
        \/ exists rec rec', normalize_recommendation rec = Ok rec'
                           /\ d = dict_set d2 "recommendation" (PDict rec')).
Proof.
  unfold normalize_analysis. intros H.
  apply ServiceFacts.bind_ok in H. destruct H as [v0 [_ H]].
  apply ServiceFacts.bind_ok in H. destruct H as [d0 [_ H]].
  apply ServiceFacts.bind_ok in H. destruct H as [prob1 [_ H]].
  apply ServiceFacts.bind_ok in H. destruct H as [m [Hm H]].
  apply ServiceFacts.bind_ok in H. destruct H as [p [Hp H]].
  set (d1 := setdefault (setdefault (setdefault (setdefault d0 "confidence" (PStr "medium"))
               "key_events" (PList [])) "risks" (PList [])) "sources" (PList [])) in H.
  assert (Hd1 : forall k, In k ["confidence"; "key_events"; "risks"; "sources"] ->
                          has_key d1 k = true).
  { intros k Hk. subst d1.
    simpl in Hk. destruct Hk as [<-|[<-|[<-|[<-|[]]]]];
      repeat (apply has_key_setdefault; (right; reflexivity) || left). }
  exists (dict_set d1 "estimated_probability" p), p.
  split; [exact (clamp01 _ _ _ Hm Hp)|].
  split; [unfold get; apply get_default_dict_set_same|].
  split; [apply has_key_dict_set; left; apply Hd1; simpl; tauto|].
  split; [apply has_key_dict_set; left; apply Hd1; simpl; tauto|].
  split; [apply has_key_dict_set; left; apply Hd1; simpl; tauto|].
  split; [apply has_key_dict_set; left; apply Hd1; simpl; tauto|].
  destruct (has_key (dict_set d1 "estimated_probability" p) "recommendation"
            && truthy (get (dict_set d1 "estimated_probability" p) "recommendation")) eqn:E.
  - right. apply ServiceFacts.bind_ok in H. destruct H as [rec [_ H]].
    apply ServiceFacts.bind_ok in H. destruct H as [rec' [Hr H]].
    injection H as <-. exists rec, rec'. split; [exact Hr|reflexivity].
  - left. injection H as <-. split; reflexivity.
Qed.

(** Whenever the normalization of the model's answer succeeds, the
    stored [estimated_probability] is a float of [0, 1] (even when the
    answer holds a string, an integer, a boolean, NaN or an infinity
    there, and whatever the current price), and the keys [confidence],
    [key_events], [risks] and [sources] are present. *)
Theorem normalize_analysis_probability json_loads (content : string)
    (current_price : pyfloat) (d : dict) :
  normalize_analysis json_loads content current_price = Ok d ->
  (exists q, get d "estimated_probability" = PFloat (Fin q) /\ (0 <= q <= 1)%Q)
  /\ has_key d "confidence" = true /\ has_key d "key_events" = true
  /\ has_key d "risks" = true /\ has_key d "sources" = true.
Proof.
  intros H.
  destruct (normalize_analysis_steps _ _ _ _ H)
    as [d2 [p [[q [-> Hq]] [Hg [H1 [H2 [H3 [H4 [[-> _]|[rec [rec' [_ ->]]]]]]]]]]]].
  - split; [exists q; split; [exact Hg|exact Hq]|]. auto.
  - split; [exists q; split; [|exact Hq]|].
    + unfold get in *. rewrite get_default_dict_set_other by discriminate. exact Hg.
    + repeat split; apply has_key_dict_set; left; assumption.
Qed.

Lemma normalize_analysis_probability_witness :
  exists d, normalize_analysis (fun _ => Ok (PDict [("estimated_probability", PStr "85%")]))
              "{}" (Fin (1 # 2)) = Ok d
            /\ exists q, get d "estimated_probability" = PFloat (Fin q) /\ (0 <= q <= 1)%Q.
Proof.
  eexists. split; [reflexivity|].
  exact (proj1 (normalize_analysis_probability
    (fun _ => Ok (PDict [("estimated_probability", PStr "85%")])) "{}" (Fin (1 # 2)) _ eq_refl)).
Defined.

(** Whenever the normalization succeeds and leaves a nonempty
    recommendation, its action is one of BUY_YES, BUY_NO, HOLD, SKIP, its
    risk level one of low, medium, high, its amount is absent, the integer
    0, a positive float or [inf], and its Kelly fraction is absent or a
    float of [0, 1]. *)
Theorem normalize_analysis_recommendation json_loads (content : string)
    (current_price : pyfloat) (d rec : dict) :
  normalize_analysis json_loads content current_price = Ok d ->
  get d "recommendation" = PDict rec -> rec <> [] ->
  in_str_list (get rec "action") valid_actions = true
  /\ in_str_list (get rec "risk_level") valid_risk_levels = true
  /\ (get rec "amount" = PNone \/ get rec "amount" = PInt 0
      \/ get rec "amount" = PFloat PInf
      \/ exists f, get rec "amount" = PFloat (Fin f) /\ (0 < f)%Q)
  /\ (get rec "kelly_fraction" = PNone
      \/ exists k, get rec "kelly_fraction" = PFloat (Fin k) /\ (0 <= k <= 1)%Q).
Proof.
  intros H Hr Hne.
  destruct (normalize_analysis_steps _ _ _ _ H)
    as [d2 [p [_ [_ [_ [_ [_ [_ [[-> E]|[rec0 [rec' [Hn ->]]]]]]]]]]]].
  - exfalso. destruct (has_key d2 "recommendation") eqn:Hk.
    + rewrite Hr in E. simpl in E. destruct rec; [contradiction|discriminate].
    + rewrite (get_not_has_key _ _ Hk) in Hr. discriminate.
  - unfold get in Hr. rewrite get_default_dict_set_same in Hr. injection Hr as <-.
    exact (normalize_recommendation_ok _ _ Hn).
Qed.

(** The model answers a recommendation with an unknown action and a
    negative amount. *)
Definition answer_bad_rec : pyval :=
  PDict [("recommendation", PDict [("action", PStr "BUY"); ("amount", PInt (-5))])].

Lemma normalize_analysis_recommendation_witness :
  exists d rec, normalize_analysis (fun _ => Ok answer_bad_rec) "{}" (Fin (1 # 2)) = Ok d
    /\ get d "recommendation" = PDict rec /\ rec <> []
    /\ in_str_list (get rec "action") valid_actions = true.
Proof.
  eexists; eexists. split; [reflexivity|]. split; [reflexivity|].
  split; [discriminate|].
  exact (proj1 (normalize_analysis_recommendation (fun _ => Ok answer_bad_rec) "{}"
    (Fin (1 # 2)) _ _ eq_refl eq_refl ltac:(discriminate))).
Defined.

End AnalysisFacts.

(* ================================================================== *)
(** ** Facts: the [/analyze] endpoint *)

Module AnalyzeEndpointFacts.
Import Py PyExtra Analysis AnalyzeEndpoint AnalysisFacts.
Local Open Scope string_scope.

Lemma has_key_of_get (d : dict) (k : string) :
  get d k <> PNone -> has_key d k = true.
Proof.
  intros H. destruct (has_key d k) eqn:E; [reflexivity|].
  exfalso. apply H. apply get_not_has_key. exact E.
Qed.

(** When the normalized analysis carries no [reasoning] key (the model's
    JSON answer simply lacks it), [/analyze] answers with HTTP 500; and
    whenever it answers, the reported probability is a float [p] of
    [0, 1] and the edge is [p - current_price]. *)
Theorem analyze_endpoint_reasoning_and_edge json_loads (content : string)
    (current_price : Q) (d : dict) :
  normalize_analysis json_loads content (Fin current_price) = Ok d ->
  (has_key d "reasoning" = false ->
   analyze_endpoint (Ok d) current_price = AnalyzeHttpError 500)
  /\ (forall r, analyze_endpoint (Ok d) current_price = AnalyzeOk r ->
      exists p, ar_estimated_probability r = Fin p /\ (0 <= p <= 1)%Q
                /\ ar_edge r = Fin (p - current_price)).
Proof.
  intros H.
  assert (Hprob : exists q, get d "estimated_probability" = PFloat (Fin q) /\ (0 <= q <= 1)%Q).
  { destruct (normalize_analysis_steps _ _ _ _ H)
      as [d2 [p [[q [-> Hq]] [Hg [_ [_ [_ [_ [[-> _]|[rec [rec' [_ ->]]]]]]]]]]]].
    - exists q. split; [exact Hg|exact Hq].
    - exists q. split; [|exact Hq].
      unfold get in *. rewrite get_default_dict_set_other by discriminate. exact Hg. }
  destruct Hprob as [q [Hg Hq]].
  assert (Hgi : getitem d "estimated_probability" = Ok (PFloat (Fin q))).
  { unfold getitem. rewrite has_key_of_get by (rewrite Hg; discriminate). rewrite Hg. reflexivity. }
  split.
  - intros Hr. unfold analyze_endpoint. simpl. unfold analyze_result.
    rewrite Hgi. simpl. unfold getitem at 1. rewrite Hr. reflexivity.
  - intros r. unfold analyze_endpoint. simpl.
    destruct (analyze_result d current_price) as [r'|e] eqn:E; [|discriminate].
    intros Hr. injection Hr as <-.
    unfold analyze_result in E. rewrite Hgi in E. simpl in E.
    apply ServiceFacts.bind_ok in E. destruct E as [reasoning [_ E]].
    repeat (apply ServiceFacts.bind_ok in E; destruct E as [? [_ E]]).
    injection E as <-. exists q. simpl. split; [reflexivity|]. split; [exact Hq|reflexivity].
Qed.

Lemma analyze_endpoint_reasoning_and_edge_witness :
  exists d,
    normalize_analysis (fun _ => Ok (PDict [("estimated_probability", PFloat (Fin (7 # 10)))]))
      "{}" (Fin (1 # 2)) = Ok d
    /\ analyze_endpoint (Ok d) (1 # 2) = AnalyzeHttpError 500.
Proof.
  eexists. split; [reflexivity|].
  apply (proj1 (analyze_endpoint_reasoning_and_edge
                  (fun _ => Ok (PDict [("estimated_probability", PFloat (Fin (7 # 10)))]))
                  "{}" (1 # 2) _ eq_refl)).
  reflexivity.
Defined.

(** When the model's answer holds no parsable JSON and the current price
    lies in [0, 1], [/analyze] still answers (it does not fail): the
    probability equals the current price, the confidence is "low", the
    reasoning is the raw answer and the edge is 0. *)
Theorem analyze_endpoint_fallback json_loads (content : string) (current_price : Q) :
  (0 <= current_price <= 1)%Q ->
  json_loads (match regex_match content with Some m => m | None => content end)
    = Raise JSONDecodeError ->
  exists r, analyze_endpoint (normalize_analysis json_loads content (Fin current_price))
                             current_price = AnalyzeOk r
    /\ (exists p, ar_estimated_probability r = Fin p /\ (p == current_price)%Q)
    /\ ar_confidence r = "low" /\ ar_reasoning r = content
    /\ (exists e, ar_edge r = Fin e /\ (e == 0)%Q).
Proof.
  intros [H0 H1] Hj.
  assert (Hp : parse_response json_loads content (Fin current_price)
               = Ok (PDict (analysis_fallback content (Fin current_price)))).
  { unfold parse_response. destruct (regex_match content); rewrite Hj; reflexivity. }
  unfold normalize_analysis. rewrite Hp.
  destruct (Qle_bool 1 current_price) eqn:E1.
  - assert (Hc : (current_price == 1)%Q) by (apply Qle_antisym; [exact H1|apply Qle_bool_iff; exact E1]).
    unfold py_min_val, num_lt. simpl. rewrite E1. simpl.
    eexists. split; [reflexivity|]. simpl.
    split; [exists 1%Q; split; [reflexivity|rewrite Hc; reflexivity]|].
    split; [reflexivity|]. split; [reflexivity|].
    eexists. split; [reflexivity|]. rewrite Hc. reflexivity.
  - destruct (Qle_bool current_price 0) eqn:E0.
    + assert (Hc : (current_price == 0)%Q) by (apply Qle_antisym; [apply Qle_bool_iff; exact E0|exact H0]).
      unfold py_min_val, num_lt. simpl. rewrite E1. simpl. rewrite E0. simpl.
      eexists. split; [reflexivity|]. simpl.
      split; [exists 0%Q; split; [reflexivity|rewrite Hc; reflexivity]|].
      split; [reflexivity|]. split; [reflexivity|].
      eexists. split; [reflexivity|]. rewrite Hc. reflexivity.
    + unfold py_min_val, num_lt. simpl. rewrite E1. simpl. rewrite E0. simpl.
      eexists. split; [reflexivity|]. simpl.
      split; [exists current_price; split; [reflexivity|apply Qeq_refl]|].
      split; [reflexivity|]. split; [reflexivity|].
      eexists. split; [reflexivity|]. ring.
Qed.

Lemma analyze_endpoint_fallback_witness :
  (0 <= 1 # 2 <= 1)%Q
  /\ (fun _ : string => @Raise pyval JSONDecodeError)
       (match regex_match "no json here" with Some m => m | None => "no json here" end)
     = Raise JSONDecodeError
  /\ exists r, analyze_endpoint (normalize_analysis (fun _ => Raise JSONDecodeError) "no json here" (Fin (1 # 2)))
                                (1 # 2) = AnalyzeOk r
      /\ (exists p, ar_estimated_probability r = Fin p /\ (p == 1 # 2)%Q)
      /\ ar_confidence r = "low" /\ ar_reasoning r = "no json here"
      /\ (exists e, ar_edge r = Fin e /\ (e == 0)%Q).
Proof.
  split; [split; [apply (Qle_bool_imp_le 0 (1 # 2) eq_refl)|apply (Qle_bool_imp_le (1 # 2) 1 eq_refl)]|].
  split; [reflexivity|].
  apply analyze_endpoint_fallback;
    [split; [apply (Qle_bool_imp_le 0 (1 # 2) eq_refl)|apply (Qle_bool_imp_le (1 # 2) 1 eq_refl)]
    |reflexivity].
Defined.

(** Only [json.JSONDecodeError] is caught around [json.loads]: any other
    exception it raises on the model's answer (a [RecursionError] on a
    too deeply nested answer such as a thousand "[") makes [/analyze]
    answer with HTTP 500, whatever the current price. *)
Theorem analyze_endpoint_uncaught_json_error json_loads (content : string)
    (current_price : Q) (e : pyexc) :
  json_loads (match regex_match content with Some m => m | None => content end) = Raise e ->
  e <> JSONDecodeError ->
  analyze_endpoint (normalize_analysis json_loads content (Fin current_price)) current_price
  = AnalyzeHttpError 500.
Proof.
  intros Hj He. unfold normalize_analysis, parse_response.
  destruct (regex_match content); rewrite Hj;
    destruct e; try (exfalso; apply He; reflexivity); reflexivity.
Qed.

Lemma analyze_endpoint_uncaught_json_error_witness :
  analyze_endpoint (normalize_analysis (fun _ => Raise RecursionError) "[[[[" (Fin (1 # 2))) (1 # 2)
  = AnalyzeHttpError 500.
Proof.
  exact (analyze_endpoint_uncaught_json_error (fun _ => Raise RecursionError) "[[[[" (1 # 2)
           RecursionError eq_refl ltac:(discriminate)).
Defined.

End AnalyzeEndpointFacts.
